(** * The Indy issuer (aries_cloudagent/issuer/indy.py)

    A shallow embedding of [IndyIssuer] and of the properties its
    specification states.

    Conventions of the embedding.
    - A Python [str] is a Rocq [string] holding its UTF-8 bytes.
    - A raw attribute value is a [value]: a string, an integer, a boolean
      or [None] (floats are left out).
    - A Python [dict] with arbitrary keys ([credential_values],
      [encoded_values]) is a [gmap string _]; a dict with a fixed set of
      keys (a schema, the two-key entry of [encoded_values]) is a record.
    - The documents that cross the engine boundary as JSON text are carried
      as the documents themselves ([json]); [json.dumps] and [json.loads]
      are the two directions of that boundary and are not modelled as text.
    - Every [await] on libindy is a node of a call tree ([prog]); an
      [engine] answers the calls, and [run] threads the engine's world and
      records the calls made, in order.
    - A libindy call either returns or raises an [IndyError].
    - A Python exception is an [exc]; [__cause__] is the [exc_cause] field
      (the implicit [__context__] is not modelled). *)

From Stdlib Require Import ZArith String Ascii List Lia.
From Stdlib Require Import Numbers.DecimalString Numbers.DecimalZ.
From Stdlib Require Import Strings.Byte.
From stdpp Require Import base option gmap strings list fin_maps.

Local Open Scope Z_scope.
Local Open Scope string_scope.

#[local] Set Warnings "-register-all".

(** ** Values and their canonical string *)

Inductive value : Type :=
| VStr (s : string)
| VInt (z : Z)
| VBool (b : bool)
| VNone.

(** [str(int)]: decimal digits, a leading minus for negatives. *)
Definition str_of_int (z : Z) : string :=
  NilZero.string_of_int (Z.to_int z).

(** Python's [str(v)]. *)
Definition py_str (v : value) : string :=
  match v with
  | VStr s => s
  | VInt z => str_of_int z
  | VBool true => "True"
  | VBool false => "False"
  | VNone => "None"
  end.

(** Python truthiness of an optional string argument ([None] and [""] are
    falsy), as used by [x or DEFAULT]. *)
Definition or_default (x : option string) (dflt : string) : string :=
  match x with
  | None => dflt
  | Some "" => dflt
  | Some s => s
  end.

(** ** Attribute encoder *)

Module Encoder.

(** Reading of a base-10 integer: an optional minus sign followed by one or
    more decimal digits, nothing else. *)
Definition parse_int (s : string) : option Z :=
  option_map Z.of_int (NilZero.int_of_string s).

(** The UTF-8 bytes of a string. *)
Definition utf8 (s : string) : list byte := list_byte_of_string s.

(** A byte sequence read as a big-endian unsigned integer. *)
Definition be_uint (bs : list byte) : Z :=
  fold_left (fun acc b => acc * 256 + Z.of_N (Byte.to_N b)) bs 0.

Section WithScheme.

(** The frozen hash choice and the magnitude the signature scheme
    supports; the specification fixes neither. *)
Variable digest : list byte -> list byte.
Variable supported : Z -> bool.

(** Modelled from the spec: [encode] is imported from
    [aries_cloudagent/messaging/util.py], which is not among the sources.
    By section 4.1: take the canonical string of the value; when it parses as
    a base-10 integer of supported magnitude the encoding is that integer;
    otherwise it is the digest of the string's UTF-8 bytes read as a
    big-endian unsigned integer. *)
Definition encode (v : value) : Z :=
  let s := py_str v in
  match parse_int s with
  | Some z => if supported z then z else be_uint (digest (utf8 s))
  | None => be_uint (digest (utf8 s))
  end.

End WithScheme.

End Encoder.

(** ** The engine boundary *)

(** The libindy error codes this layer looks at, a few of the others by
  name, and the rest by number. *)
Inductive ErrorCode : Type :=
| CommonInvalidStructure
| WalletItemNotFound
| AnoncredsRevocationRegistryFullError
| CommonInvalidState
| CommonIOError
| WalletInvalidHandle
| AnoncredsInvalidUserRevocId
| AnoncredsCredDefAlreadyExistsError
| OtherErrorCode (n : positive).

Global Instance ErrorCode_eq_dec : EqDecision ErrorCode.
Proof. solve_decision. Defined.

(** A failure raised by libindy. The binding builds the exception from the
  code, so the class of the exception is a function of [error_code]. *)
Record IndyError : Type := mkIndyError {
error_code : ErrorCode;
message : option string
}.

(** [isinstance(e, AnoncredsRevocationRegistryFullError)]. *)
Definition is_registry_full (e : IndyError) : bool :=
bool_decide (error_code e = AnoncredsRevocationRegistryFullError).

(** The two error classes of [issuer/base.py]; the second derives from the
  first. *)
Inductive issuer_class : Type :=
| IssuerError
| IssuerRevocationRegistryFullError.

Global Instance issuer_class_eq_dec : EqDecision issuer_class.
Proof. solve_decision. Defined.

(** What a call of the issuer can raise: an error of the issuer's own
  classes, with its [__cause__], or a libindy failure as it came. *)
Inductive exc : Type :=
| IssuerExc (cls : issuer_class) (msg : string) (cause : option IndyError)
| IndyExc (e : IndyError).

(** [isinstance(e, IssuerError)]. *)
Definition is_issuer_error (e : exc) : bool :=
match e with
| IssuerExc _ _ _ => true
| IndyExc _ => false
end.

(** The issuer class of an exception, when it has one. *)
Definition exc_class (e : exc) : option issuer_class :=
match e with
| IssuerExc cls _ _ => Some cls
| IndyExc _ => None
end.

Definition exc_cause (e : exc) : option IndyError :=
match e with
| IssuerExc _ _ cause => cause
| IndyExc _ => None
end.

(** [raise e from cause]. *)
Definition raise_from (e : exc) (cause : IndyError) : exc :=
match e with
| IssuerExc cls msg _ => IssuerExc cls msg (Some cause)
| IndyExc x => IndyExc x
end.

(** JSON documents. *)
Inductive json : Type :=
| JNull
| JBool (b : bool)
| JInt (z : Z)
| JStr (s : string)
| JList (l : list json)
| JDict (l : list (string * json)).

(** A schema document, with the keys the data model gives it. *)
Record Schema : Type := mkSchema {
schema_id : string;
schema_name : string;
schema_version : string;
attrNames : list string;
seqNo : value
}.

(** One entry of [encoded_values]: [{"raw": ..., "encoded": ...}]. *)
Record entry : Type := mkEntry {
raw : string;
encoded : Z
}.

(** The libindy calls the issuer awaits, indexed by what they return. *)
Inductive call : Type -> Type :=
| issuer_create_schema
  (origin_did schema_name schema_version : string)
  (attribute_names : list string) : call (string * json)
| issuer_create_credential_offer
  (wallet_handle : Z) (credential_definition_id : string) : call json
| issuer_create_and_store_credential_def
  (wallet_handle : Z) (origin_did : string) (schema : Schema)
  (tag signature_type : string) (support_revocation : bool)
  : call (string * json)
| issuer_create_credential
  (wallet_handle : Z) (credential_offer credential_request : json)
  (encoded_values : gmap string entry)
  (revoc_reg_id : option string) (tails_reader_handle : option Z)
  : call (json * option string * option json)
| issuer_revoke_credential
  (wallet_handle : Z) (tails_reader_handle : Z)
  (revoc_reg_id cred_revoc_id : string) : call json
| open_writer
  (type_ : string) (base_dir uri_pattern : string) : call Z
| issuer_create_and_store_revoc_reg
  (wallet_handle : Z) (origin_did revoc_def_type tag cred_def_id : string)
  (max_cred_num : Z) (issuance_type : string) (tails_writer : Z)
  : call (string * json * json).

(** ** Call trees *)

Inductive prog (R : Type) : Type :=
| Ret (r : R)
| Raise (e : exc)
| Await {X : Type} (c : call X) (k : IndyError + X -> prog R)
| LogError (line : string) (k : prog R).

Arguments Ret {R} r.
Arguments Raise {R} e.
Arguments Await {R X} c k.
Arguments LogError {R} line k.

Fixpoint bind {A B : Type} (p : prog A) (f : A -> prog B) : prog B :=
match p with
| Ret r => f r
| Raise e => Raise e
| Await c k => Await c (fun r => bind (k r) f)
| LogError line k => LogError line (bind k f)
end.

Global Instance prog_ret : MRet prog := @Ret.
Global Instance prog_bind : MBind prog := fun A B f p => bind p f.

(** [await indy....(...)]: the binding raises the failure as an
  [IndyError]. *)
Definition indy {X : Type} (c : call X) : prog X :=
Await c (fun r => match r with
                  | inl err => Raise (IndyExc err)
                  | inr x => Ret x
                  end).

(** [try: p  except ...: handler]; a handler answering [None] does not
  match the exception, which then propagates. *)
Fixpoint try_except {R : Type} (p : prog R) (handler : exc -> option (prog R))
: prog R :=
match p with
| Ret r => Ret r
| Raise e => match handler e with
             | Some q => q
             | None => Raise e
             end
| Await c k => Await c (fun r => try_except (k r) handler)
| LogError line k => LogError line (try_except k handler)
end.

(** ** Running a call tree against an engine *)

(** An engine answers every call, in a world of its own. *)
Definition engine (W : Type) : Type :=
forall X : Type, call X -> W -> (IndyError + X) * W.

Inductive event : Type :=
| Called {X : Type} (c : call X)
| Logged (line : string).

Record outcome (W R : Type) : Type := mkOutcome {
result : exc + R;
world : W;
trace : list event
}.

Arguments mkOutcome {W R} result world trace.
Arguments result {W R} o.
Arguments world {W R} o.
Arguments trace {W R} o.

Fixpoint run_from {W R : Type} (eng : engine W) (p : prog R) (w : W)
(seen : list event) : outcome W R :=
match p with
| Ret r => mkOutcome (inr r) w seen
| Raise e => mkOutcome (inl e) w seen
| Await c k =>
    let '(reply, w') := eng _ c w in
    run_from eng (k reply) w' (seen ++ [Called c])
| LogError line k => run_from eng k w (seen ++ [Logged line])
end.

Definition run {W R : Type} (eng : engine W) (p : prog R) (w : W)
: outcome W R :=
run_from eng p w [].

Definition is_engine_call (ev : event) : bool :=
match ev with
| Called _ => true
| Logged _ => false
end.

(** The calls of a trace that reached the engine. *)
Definition engine_calls (t : list event) : list event :=
List.filter is_engine_call t.

(** ** The issuer *)

Section IndyIssuer.

(** [self.wallet.handle]. *)
Variable wallet_handle : Z.

(** The constants imported from [issuer/base.py], which is not among the
    sources. *)
Variable DEFAULT_CRED_DEF_TAG : string.
Variable DEFAULT_ISSUANCE_TYPE : string.
Variable DEFAULT_SIGNATURE_TYPE : string.

(** [encode], imported from [messaging/util.py]. *)
Variable encode : value -> Z.

(** The text [IndyErrorHandler.wrap_error] gives the error it builds, from
    the caller's message and the libindy failure. *)
Variable wrap_text : string -> IndyError -> string.

(** Modelled from the spec: [IndyErrorHandler] is defined in
    [aries_cloudagent/indy/error.py], which is not among the sources.
    Sections 4.3 and 4.5: an engine failure is wrapped into an error of
    the class asked for. *)
Definition wrap_error (err_value : IndyError) (message : string)
  (error_cls : issuer_class) : exc :=
  IssuerExc error_cls (wrap_text message err_value) None.

(** Modelled from the spec: [with IndyErrorHandler(message, error_cls):]
    around a block; same absent file. Sections 4.3 and 4.5: a libindy
    failure leaving the block is wrapped, with the failure as the cause;
    anything else passes. *)
Definition IndyErrorHandler {R : Type} (message : string)
  (error_cls : issuer_class) (block : prog R) : prog R :=
  try_except block
    (fun e => match e with
              | IndyExc err_value =>
                  Some (Raise (raise_from
                                 (wrap_error err_value message error_cls)
                                 err_value))
              | IssuerExc _ _ _ => None
              end).

Definition make_schema_id (origin_did schema_name schema_version : string)
  : string :=
  origin_did +:+ ":2:" +:+ schema_name +:+ ":" +:+ schema_version.

Definition create_and_store_schema
  (origin_did schema_name schema_version : string)
  (attribute_names : list string) : prog (string * json) :=
  '(schema_id, schema_json) ←
    IndyErrorHandler "Error when creating schema" IssuerError
      (indy (issuer_create_schema origin_did schema_name schema_version
               attribute_names));
  Ret (schema_id, schema_json).

Definition make_credential_definition_id (origin_did : string)
  (schema : Schema) (signature_type tag : option string) : string :=
  let signature_type := or_default signature_type DEFAULT_SIGNATURE_TYPE in
  let tag := or_default tag DEFAULT_CRED_DEF_TAG in
  origin_did +:+ ":3:" +:+ signature_type +:+ ":"
    +:+ py_str (seqNo schema) +:+ ":" +:+ tag.

Definition credential_definition_in_wallet
  (credential_definition_id : string) : prog bool :=
  try_except
    (_ ← indy (issuer_create_credential_offer wallet_handle
                 credential_definition_id);
     Ret true)
    (fun e =>
       match e with
       | IndyExc error =>
           if negb (bool_decide
                      (error_code error
                         ∈ [CommonInvalidStructure; WalletItemNotFound]))
           then Some (Raise (raise_from
                               (wrap_error error
                                  "Error when checking wallet for credential definition"
                                  IssuerError)
                               error))
           else Some (Ret false)
       | IssuerExc _ _ _ => None
       end).

Definition create_and_store_credential_definition (origin_did : string)
  (schema : Schema) (signature_type tag : option string)
  (support_revocation : bool) : prog (string * json) :=
  '(credential_definition_id, credential_definition_json) ←
    IndyErrorHandler "Error when creating credential definition" IssuerError
      (indy (issuer_create_and_store_credential_def wallet_handle origin_did
               schema
               (or_default tag DEFAULT_CRED_DEF_TAG)
               (or_default signature_type DEFAULT_SIGNATURE_TYPE)
               support_revocation));
  Ret (credential_definition_id, credential_definition_json).

Definition create_credential_offer (credential_definition_id : string)
  : prog json :=
  credential_offer_json ←
    IndyErrorHandler "Exception when creating credential offer" IssuerError
      (indy (issuer_create_credential_offer wallet_handle
               credential_definition_id));
  Ret credential_offer_json.

Definition missing_value_message (attribute : string) : string :=
  "Provided credential values are missing a value "
    +:+ "for the schema attribute '" +:+ attribute +:+ "'".

(** The loop over [schema_attributes], from the [encoded_values] built so
    far. *)
Fixpoint encode_attributes (schema_attributes : list string)
  (credential_values : gmap string value)
  (encoded_values : gmap string entry) : exc + gmap string entry :=
  match schema_attributes with
  | [] => inr encoded_values
  | attribute :: rest =>
      match credential_values !! attribute with
      | None =>
          inl (IssuerExc IssuerError (missing_value_message attribute) None)
      | Some credential_value =>
          encode_attributes rest credential_values
            (<[attribute := {| raw := py_str credential_value;
                               encoded := encode credential_value |}]>
               encoded_values)
      end
  end.

Definition create_credential (schema : Schema)
  (credential_offer credential_request : json)
  (credential_values : gmap string value)
  (revoc_reg_id : option string) (tails_reader_handle : option Z)
  : prog (json * option string) :=
  match encode_attributes (attrNames schema) credential_values ∅ with
  | inl e => Raise e
  | inr encoded_values =>
      '(credential_json, credential_revocation_id, revoc_reg_delta_json) ←
        try_except
          (indy (issuer_create_credential wallet_handle credential_offer
                   credential_request encoded_values revoc_reg_id
                   tails_reader_handle))
          (fun e =>
             match e with
             | IndyExc error =>
                 if is_registry_full error
                 then Some (LogError
                              "Revocation registry is full when creating a credential."
                              (Raise (IssuerExc
                                        IssuerRevocationRegistryFullError
                                        "Revocation registry full" None)))
                 else Some (Raise (raise_from
                                     (wrap_error error
                                        "Error when issuing credential"
                                        IssuerError)
                                     error))
             | IssuerExc _ _ _ => None
             end);
      Ret (credential_json, credential_revocation_id)
  end.

Definition revoke_credential (revoc_reg_id : string)
  (tails_reader_handle : Z) (cred_revoc_id : string) : prog json :=
  revoc_reg_delta_json ←
    IndyErrorHandler "Exception when revoking credential" IssuerError
      (indy (issuer_revoke_credential wallet_handle tails_reader_handle
               revoc_reg_id cred_revoc_id));
  let delta := revoc_reg_delta_json in
  Ret delta.

Definition create_and_store_revocation_registry
  (origin_did cred_def_id revoc_def_type tag : string) (max_cred_num : Z)
  (tails_base_path : string) (issuance_type : option string)
  : prog (string * json * json) :=
  tails_writer ← indy (open_writer "default" tails_base_path "");
  '(revoc_reg_id, revoc_reg_def_json, revoc_reg_entry_json) ←
    IndyErrorHandler "Exception when creating revocation registry"
      IssuerError
      (indy (issuer_create_and_store_revoc_reg wallet_handle origin_did
               revoc_def_type tag cred_def_id max_cred_num
               (or_default issuance_type DEFAULT_ISSUANCE_TYPE)
               tails_writer));
  Ret (revoc_reg_id, revoc_reg_def_json, revoc_reg_entry_json).

End IndyIssuer.

(** An issuer error that carries a libindy failure as its cause. *)
Definition wrapped (e : exc) : Prop :=
is_issuer_error e = true /\ exists err_value, exc_cause e = Some err_value.

(** ** The identifier formats as the specification words them *)

Module Spec.

(** Section 4.2: [schemaId(originDid, name, version) =
  "{originDid}:2:{name}:{version}"]. *)
Definition schemaId (originDid name version : string) : string :=
originDid +:+ ":2:" +:+ name +:+ ":" +:+ version.

(** Section 4.2: [credDefId(originDid, schema, signatureType, tag) =
  "{originDid}:3:{signatureType}:{schema.seqNo}:{tag}"]. *)
Definition credDefId (originDid : string) (schema : Schema)
(signatureType tag : string) : string :=
originDid +:+ ":3:" +:+ signatureType +:+ ":" +:+ py_str (seqNo schema)
  +:+ ":" +:+ tag.

End Spec.

(** The entry [create_credential] stores for a value, given [encode]. *)
Definition entry_of (encode : value -> Z) (credential_value : value) : entry :=
{| raw := py_str credential_value; encoded := encode credential_value |}.

(** ** Sample schemes and engines

  Concrete instances on which the statements below are run. *)

Module Sample.

(** A stand-in for the digest: the input cut or zero-padded to 32 bytes. *)
Definition digest32 (bs : list byte) : list byte :=
firstn 32 (bs ++ repeat "000"%byte 32).

(** A 32-bit signed magnitude. *)
Definition int32 (z : Z) : bool :=
((- 2 ^ 31 <=? z) && (z <? 2 ^ 31))%Z.

Definition encode : value -> Z := Encoder.encode digest32 int32.

Definition wrap_text (err_msg : string) (err_value : IndyError) : string :=
match message err_value with
| Some indy_message => err_msg +:+ ": " +:+ indy_message
| None => err_msg
end.

(** An engine that grants every call; its world counts the calls. *)
Definition obliging : engine nat :=
fun X c w =>
  (match c in call X return IndyError + X with
   | issuer_create_schema origin_did name version _ =>
       inr (origin_did +:+ ":2:" +:+ name +:+ ":" +:+ version, JDict [])
   | issuer_create_credential_offer _ cred_def_id =>
       inr (JDict [("cred_def_id", JStr cred_def_id)])
   | issuer_create_and_store_credential_def _ origin_did _ tag _ _ =>
       inr (origin_did +:+ ":3:" +:+ tag, JDict [])
   | issuer_create_credential _ _ _ _ revoc_reg_id _ =>
       inr (JDict [("signature", JStr "sig")],
            match revoc_reg_id with
            | Some _ => Some (str_of_int (Z.of_nat (S w)))
            | None => None
            end,
            match revoc_reg_id with
            | Some _ => Some (JDict [("ver", JStr "1.0")])
            | None => None
            end)
   | issuer_revoke_credential _ _ _ cred_revoc_id =>
       inr (JDict [("revoked", JList [JStr cred_revoc_id])])
   | open_writer _ _ _ => inr 7
   | issuer_create_and_store_revoc_reg _ origin_did _ tag _ _ _ _ =>
       inr (origin_did +:+ ":4:" +:+ tag, JDict [], JDict [])
   end, S w).

(** An engine that refuses every call with the same failure. *)
Definition refusing (err : IndyError) : engine nat :=
fun X c w => (inl err, S w).

(** An engine whose tails store refuses to open a writer and which grants
  everything else. *)
Definition no_tails (err : IndyError) : engine nat :=
fun X c w =>
  match c in call X return (IndyError + X) * nat with
  | open_writer _ _ _ => (inl err, S w)
  | c' => obliging _ c' w
  end.

Definition schema15 : Schema :=
{| schema_id := "did:x:2:name:1.0"; schema_name := "name";
   schema_version := "1.0"; attrNames := ["age"; "name"];
   seqNo := VInt 15 |}.

Definition full_values : gmap string value :=
<["age" := VInt 412]> (<["name" := VStr "Alice"]> ∅).

Definition extra_values : gmap string value :=
<["shoe_size" := VStr "44"]> full_values.

Definition partial_values : gmap string value :=
<["age" := VStr "-7"]> ∅.

Definition io_failure : IndyError :=
{| error_code := CommonIOError; message := Some "cannot open" |}.

Definition registry_full : IndyError :=
{| error_code := AnoncredsRevocationRegistryFullError; message := None |}.

Definition not_found : IndyError :=
{| error_code := WalletItemNotFound; message := None |}.

End Sample.

(** ** The methods of the class, as one type

    A [method] is a call of a method of [IndyIssuer] with its arguments,
    indexed by what the method returns; [perform] is the call itself. The
    two id derivers are not coroutines: they return at once. *)

Inductive method : Type -> Type :=
| MakeSchemaId (origin_did schema_name schema_version : string)
    : method string
| CreateAndStoreSchema (origin_did schema_name schema_version : string)
    (attribute_names : list string) : method (string * json)
| MakeCredentialDefinitionId (origin_did : string) (schema : Schema)
    (signature_type tag : option string) : method string
| CredentialDefinitionInWallet (credential_definition_id : string)
    : method bool
| CreateAndStoreCredentialDefinition (origin_did : string) (schema : Schema)
    (signature_type tag : option string) (support_revocation : bool)
    : method (string * json)
| CreateCredentialOffer (credential_definition_id : string) : method json
| CreateCredential (schema : Schema)
    (credential_offer credential_request : json)
    (credential_values : gmap string value)
    (revoc_reg_id : option string) (tails_reader_handle : option Z)
    : method (json * option string)
| RevokeCredential (revoc_reg_id : string) (tails_reader_handle : Z)
    (cred_revoc_id : string) : method json
| CreateAndStoreRevocationRegistry
    (origin_did cred_def_id revoc_def_type tag : string) (max_cred_num : Z)
    (tails_base_path : string) (issuance_type : option string)
    : method (string * json * json).

Section Methods.

Variable wallet_handle : Z.
Variable DEFAULT_CRED_DEF_TAG : string.
Variable DEFAULT_ISSUANCE_TYPE : string.
Variable DEFAULT_SIGNATURE_TYPE : string.
Variable encode : value -> Z.
Variable wrap_text : string -> IndyError -> string.

Definition perform {R : Type} (m : method R) : prog R :=
  match m with
  | MakeSchemaId origin_did schema_name schema_version =>
      Ret (make_schema_id origin_did schema_name schema_version)
  | CreateAndStoreSchema origin_did schema_name schema_version
      attribute_names =>
      create_and_store_schema wrap_text origin_did schema_name schema_version
        attribute_names
  | MakeCredentialDefinitionId origin_did schema signature_type tag =>
      Ret (make_credential_definition_id DEFAULT_CRED_DEF_TAG
             DEFAULT_SIGNATURE_TYPE origin_did schema signature_type tag)
  | CredentialDefinitionInWallet credential_definition_id =>
      credential_definition_in_wallet wallet_handle wrap_text
        credential_definition_id
  | CreateAndStoreCredentialDefinition origin_did schema signature_type tag
      support_revocation =>
      create_and_store_credential_definition wallet_handle
        DEFAULT_CRED_DEF_TAG DEFAULT_SIGNATURE_TYPE wrap_text origin_did
        schema signature_type tag support_revocation
  | CreateCredentialOffer credential_definition_id =>
      create_credential_offer wallet_handle wrap_text credential_definition_id
  | CreateCredential schema credential_offer credential_request
      credential_values revoc_reg_id tails_reader_handle =>
      create_credential wallet_handle encode wrap_text schema credential_offer
        credential_request credential_values revoc_reg_id tails_reader_handle
  | RevokeCredential revoc_reg_id tails_reader_handle cred_revoc_id =>
      revoke_credential wallet_handle wrap_text revoc_reg_id
        tails_reader_handle cred_revoc_id
  | CreateAndStoreRevocationRegistry origin_did cred_def_id revoc_def_type
      tag max_cred_num tails_base_path issuance_type =>
      create_and_store_revocation_registry wallet_handle
        DEFAULT_ISSUANCE_TYPE wrap_text origin_did cred_def_id revoc_def_type
        tag max_cred_num tails_base_path issuance_type
  end.

End Methods.

(** The most libindy calls one call of a method makes. *)
Definition call_budget {R : Type} (m : method R) : nat :=
  match m with
  | MakeSchemaId _ _ _ => 0
  | MakeCredentialDefinitionId _ _ _ _ => 0
  | CreateAndStoreRevocationRegistry _ _ _ _ _ _ _ => 2
  | _ => 1
  end.

(** The error [create_credential] raises for a full registry. *)
Definition registry_full_error : exc :=
  IssuerExc IssuerRevocationRegistryFullError "Revocation registry full" None.

(** ** What a trace shows *)

(** The lines written to the log, in order. *)
Definition log_lines (t : list event) : list string :=
  flat_map (fun ev => match ev with
                      | Logged line => [line]
                      | Called _ => []
                      end) t.

(** The wallet handle a libindy call is given, when it takes one. *)
Definition call_wallet_handle {X : Type} (c : call X) : option Z :=
  match c with
  | issuer_create_schema _ _ _ _ => None
  | issuer_create_credential_offer h _ => Some h
  | issuer_create_and_store_credential_def h _ _ _ _ _ => Some h
  | issuer_create_credential h _ _ _ _ _ => Some h
  | issuer_revoke_credential h _ _ _ => Some h
  | open_writer _ _ _ => None
  | issuer_create_and_store_revoc_reg h _ _ _ _ _ _ _ => Some h
  end.

(** The wallet handles given to the engine along a trace. *)
Definition wallet_handles (t : list event) : list Z :=
  flat_map (fun ev => match ev with
                      | Called c => match call_wallet_handle c with
                                    | Some h => [h]
                                    | None => []
                                    end
                      | Logged _ => []
                      end) t.

(** A string without the separator of the identifiers. *)
Fixpoint colon_free (s : string) : bool :=
  match s with
  | EmptyString => true
  | String c rest => negb (Ascii.eqb c ":") && colon_free rest
  end.

(** ** Further sample engines *)

Module Scenario.

(** An engine whose tails store opens a writer and which refuses to create
    the registry. *)
Definition no_registry (err : IndyError) : engine nat :=
  fun X c w =>
    match c in call X return (IndyError + X) * nat with
    | issuer_create_and_store_revoc_reg _ _ _ _ _ _ _ _ => (inl err, S w)
    | c' => Sample.obliging _ c' w
    end.

Definition invalid_state : IndyError :=
  {| error_code := CommonInvalidState; message := None |}.

Definition reordered_schema : Schema :=
  {| schema_id := "did:x:2:name:1.0"; schema_name := "name";
     schema_version := "1.0"; attrNames := ["name"; "age"; "name"];
     seqNo := VInt 15 |}.

End Scenario.

(** * Properties *)

(** ** The canonical string and the encoder *)

Module EncoderFacts.
Import Encoder.

Lemma to_int_not_nil (z : Z) :
Z.to_int z <> Decimal.Pos Decimal.Nil /\ Z.to_int z <> Decimal.Neg Decimal.Nil.
Proof.
destruct z as [|p|p]; simpl; split; try discriminate;
  intros [= H]; exact (DecimalPos.Unsigned.to_uint_nonnil p H).
Qed.

(** Printing an integer and reading it back gives the integer. *)
Lemma parse_int_str_of_int (z : Z) : parse_int (str_of_int z) = Some z.
Proof.
unfold parse_int, str_of_int.
destruct (to_int_not_nil z) as [Hp Hn].
rewrite (NilZero.isi _ Hp Hn). simpl. f_equal. apply DecimalZ.of_to.
Qed.

Lemma be_uint_snoc (bs : list byte) (b : byte) :
be_uint (bs ++ [b]) = be_uint bs * 256 + Z.of_N (Byte.to_N b).
Proof. unfold be_uint. now rewrite fold_left_app. Qed.

Lemma byte_range (b : byte) : 0 <= Z.of_N (Byte.to_N b) < 256.
Proof.
split; [apply N2Z.is_nonneg|].
pose proof (Byte.to_N_bounded b) as H. lia.
Qed.

(** A sequence of [n] bytes reads as a number below [256 ^ n]. *)
Lemma be_uint_bound (bs : list byte) :
0 <= be_uint bs < 256 ^ Z.of_nat (length bs).
Proof.
induction bs as [|b bs IH] using rev_ind.
- unfold be_uint; simpl. lia.
- rewrite be_uint_snoc, length_app. simpl length.
  replace (Z.of_nat (length bs + 1)) with (Z.succ (Z.of_nat (length bs)))
    by lia.
  rewrite Z.pow_succ_r by lia.
  pose proof (byte_range b). nia.
Qed.

Lemma digest32_length (bs : list byte) : length (Sample.digest32 bs) = 32%nat.
Proof.
unfold Sample.digest32.
rewrite length_take, length_app, repeat_length. lia.
Qed.

Section WithScheme.

Variable digest : list byte -> list byte.
Variable supported : Z -> bool.

Lemma encode_integer (v : value) (z : Z) :
  parse_int (py_str v) = Some z -> supported z = true ->
  encode digest supported v = z.
Proof. unfold encode. intros -> ->. reflexivity. Qed.

Lemma encode_digest (v : value) :
  (forall z, parse_int (py_str v) = Some z -> supported z = false) ->
  encode digest supported v = be_uint (digest (utf8 (py_str v))).
Proof.
  unfold encode. intros H.
  destruct (parse_int (py_str v)) as [z|]; [|reflexivity].
  now rewrite (H z eq_refl).
Qed.

(** An integer value of supported magnitude encodes as itself. *)
Lemma encode_VInt (z : Z) :
  supported z = true -> encode digest supported (VInt z) = z.
Proof. intros H. apply encode_integer; [apply parse_int_str_of_int|exact H]. Qed.

(** [encode] reads its argument only through the canonical string. *)
Lemma encode_by_string (v1 v2 : value) :
  py_str v1 = py_str v2 ->
  encode digest supported v1 = encode digest supported v2.
Proof. unfold encode. now intros ->. Qed.

End WithScheme.

Example encode_412 : Sample.encode (VStr "412") = 412.
Proof. reflexivity. Qed.

Example encode_minus_7 : Sample.encode (VStr "-7") = -7.
Proof. reflexivity. Qed.

Example encode_int_412 : Sample.encode (VInt 412) = Sample.encode (VStr "412").
Proof. reflexivity. Qed.

Example encode_text :
Sample.encode (VStr "Alice")
= be_uint (Sample.digest32 (utf8 "Alice")).
Proof. reflexivity. Qed.

Example encode_too_large :
Sample.encode (VStr "2147483648")
= be_uint (Sample.digest32 (utf8 "2147483648")).
Proof. reflexivity. Qed.

End EncoderFacts.

(** ** Running call trees *)

Lemma run_from_seen {W R : Type} (eng : engine W) (p : prog R) (w : W)
(seen : list event) :
run_from eng p w seen
= mkOutcome (result (run eng p w)) (world (run eng p w))
    (seen ++ trace (run eng p w))%list.
Proof.
unfold run. revert w seen.
induction p as [r|e|X c k IH|line k IH]; intros w seen; simpl.
- now rewrite app_nil_r.
- now rewrite app_nil_r.
- destruct (eng X c w) as [reply w'].
  rewrite (IH reply w' (seen ++ [Called c])%list), (IH reply w' [Called c]).
  simpl. now rewrite <- app_assoc.
- rewrite (IH w (seen ++ [Logged line])%list), (IH w [Logged line]).
  simpl. now rewrite <- app_assoc.
Qed.

(** A tree that raises at once makes no call and leaves the world as it
  was. *)
Lemma run_Raise {W R : Type} (eng : engine W) (e : exc) (w : W) :
run eng (Raise e : prog R) w = mkOutcome (inl e) w [].
Proof. reflexivity. Qed.

(** Running one awaited call. *)
Lemma run_Await {W R X : Type} (eng : engine W) (c : call X)
(k : IndyError + X -> prog R) (w : W) :
run eng (Await c k) w
= let o := run eng (k (eng X c w).1) (eng X c w).2 in
  mkOutcome (result o) (world o) (Called c :: trace o).
Proof.
unfold run at 1. simpl. destruct (eng X c w) as [reply w']. simpl.
now rewrite run_from_seen.
Qed.

Lemma run_LogError {W R : Type} (eng : engine W) (line : string)
(k : prog R) (w : W) :
run eng (LogError line k) w
= let o := run eng k w in
  mkOutcome (result o) (world o) (Logged line :: trace o).
Proof. unfold run at 1. simpl. now rewrite run_from_seen. Qed.

(** ** The loop over the schema attributes *)

Section EncodeAttributes.

Variable encode : value -> Z.

Lemma encode_attributes_inr (attrs : list string)
  (vals : gmap string value) (acc enc : gmap string entry) :
  encode_attributes encode attrs vals acc = inr enc ->
  (forall a, a ∈ attrs ->
     exists v, vals !! a = Some v /\ enc !! a = Some (entry_of encode v))
  /\ (forall a, a ∉ attrs -> enc !! a = acc !! a).
Proof.
  revert acc. induction attrs as [|b attrs IH]; intros acc; simpl.
  - intros [= <-]. split; [|done]. intros a Ha. by apply elem_of_nil in Ha.
  - destruct (vals !! b) as [v|] eqn:Hb; [|discriminate].
    intros H. destruct (IH _ H) as [Hin Hout]. split.
    + intros a Ha. destruct (decide (a ∈ attrs)) as [Hm|Hm]; [by apply Hin|].
      apply elem_of_cons in Ha as [->|Ha]; [|done].
      exists v. split; [done|]. rewrite (Hout _ Hm).
      by rewrite lookup_insert_eq.
    + intros a Ha. apply not_elem_of_cons in Ha as [Hne Hm].
      rewrite (Hout _ Hm). by rewrite lookup_insert_ne.
Qed.

(** The names stored are those of the schema, on top of what was there. *)
Lemma encode_attributes_dom (attrs : list string)
  (vals : gmap string value) (acc enc : gmap string entry) :
  encode_attributes encode attrs vals acc = inr enc ->
  dom enc = list_to_set attrs ∪ dom acc.
Proof.
  intros H. destruct (encode_attributes_inr _ _ _ _ H) as [Hin Hout].
  apply set_eq. intros a. rewrite elem_of_union, elem_of_list_to_set.
  rewrite !elem_of_dom. destruct (decide (a ∈ attrs)) as [Hm|Hm].
  - destruct (Hin _ Hm) as (v & _ & ->). split; [by left|by eexists].
  - rewrite (Hout _ Hm). split; [by right|]. by intros [?|?].
Qed.

(** With every schema attribute present the loop completes. *)
Lemma encode_attributes_complete (attrs : list string)
  (vals : gmap string value) (acc : gmap string entry) :
  (forall a, a ∈ attrs -> is_Some (vals !! a)) ->
  exists enc, encode_attributes encode attrs vals acc = inr enc.
Proof.
  revert acc. induction attrs as [|b attrs IH]; intros acc Hall; simpl.
  - by eexists.
  - destruct (Hall b) as [v ->]; [by left|].
    apply IH. intros a Ha. apply Hall. by right.
Qed.

(** With a schema attribute absent the loop stops at the first absent
    one and reports it. *)
Lemma encode_attributes_missing (attrs : list string)
  (vals : gmap string value) (acc : gmap string entry) (a : string) :
  a ∈ attrs -> vals !! a = None ->
  exists before missing after,
    attrs = (before ++ missing :: after)%list
    /\ (forall b, b ∈ before -> is_Some (vals !! b))
    /\ vals !! missing = None
    /\ encode_attributes encode attrs vals acc
       = inl (IssuerExc IssuerError (missing_value_message missing) None).
Proof.
  revert acc. induction attrs as [|b attrs IH]; intros acc Ha Hnone.
  - by apply elem_of_nil in Ha.
  - simpl. destruct (vals !! b) as [v|] eqn:Hb.
    + apply elem_of_cons in Ha as [->|Ha]; [congruence|].
      destruct (IH (<[b:=entry_of encode v]> acc) Ha Hnone)
        as (before & missing & after & -> & Hbefore & Hmiss & Hres).
      exists (b :: before), missing, after. split; [done|].
      split; [|by split].
      intros c Hc. apply elem_of_cons in Hc as [->|Hc]; [by eexists|].
      by apply Hbefore.
    + exists [], b, attrs. split; [done|]. split; [|by split].
      intros c Hc. by apply elem_of_nil in Hc.
Qed.

(** Keys outside the schema play no part. *)
Lemma encode_attributes_extra (attrs : list string)
  (vals vals' : gmap string value) (acc : gmap string entry) :
  (forall a, a ∈ attrs -> vals !! a = vals' !! a) ->
  encode_attributes encode attrs vals acc
  = encode_attributes encode attrs vals' acc.
Proof.
  revert acc. induction attrs as [|b attrs IH]; intros acc Hsame; simpl.
  - done.
  - rewrite <- (Hsame b) by by left.
    destruct (vals !! b); [|done].
    apply IH. intros a Ha. apply Hsame. by right.
Qed.

End EncodeAttributes.

(** ** Issuance *)

(** What [create_credential] does once the loop has completed, by the
  engine's answer to the one call it makes. *)
Lemma create_credential_run (wallet_handle : Z) (encode : value -> Z)
(wrap_text : string -> IndyError -> string) {W : Type} (eng : engine W)
(w : W) (schema : Schema) (credential_offer credential_request : json)
(revoc_reg_id : option string) (tails_reader_handle : option Z)
(credential_values : gmap string value)
(encoded_values : gmap string entry) :
encode_attributes encode (attrNames schema) credential_values ∅
= inr encoded_values ->
run eng
  (create_credential wallet_handle encode wrap_text schema credential_offer
     credential_request credential_values revoc_reg_id tails_reader_handle)
  w
= let issuance :=
    issuer_create_credential wallet_handle credential_offer
      credential_request encoded_values revoc_reg_id tails_reader_handle in
  let reply := eng _ issuance w in
  match reply.1 with
  | inr (credential_json, credential_revocation_id, _) =>
      mkOutcome (inr (credential_json, credential_revocation_id)) reply.2
        [Called issuance]
  | inl error =>
      if is_registry_full error
      then mkOutcome
             (inl (IssuerExc IssuerRevocationRegistryFullError
                     "Revocation registry full" None))
             reply.2
             [Called issuance;
              Logged "Revocation registry is full when creating a credential."]
      else mkOutcome
             (inl (IssuerExc IssuerError
                     (wrap_text "Error when issuing credential" error)
                     (Some error)))
             reply.2
             [Called issuance]
  end.
Proof.
intros Hloop. unfold create_credential. rewrite Hloop.
unfold indy. cbn [mbind prog_bind bind try_except].
rewrite run_Await. cbn zeta.
destruct (eng _ _ w) as [[error|[[cj cid] delta]] w'];
  cbn [fst snd bind try_except].
- destruct (is_registry_full error); reflexivity.
- reflexivity.
Qed.

(** Without the loop completing nothing is run. *)
Lemma create_credential_stops (wallet_handle : Z) (encode : value -> Z)
(wrap_text : string -> IndyError -> string) (schema : Schema)
(credential_offer credential_request : json)
(revoc_reg_id : option string) (tails_reader_handle : option Z)
(credential_values : gmap string value) (e : exc) :
encode_attributes encode (attrNames schema) credential_values ∅ = inl e ->
create_credential wallet_handle encode wrap_text schema credential_offer
  credential_request credential_values revoc_reg_id tails_reader_handle
= Raise e.
Proof. intros Hloop. unfold create_credential. now rewrite Hloop. Qed.

(** The engine sees one issuance call, whatever it answers. *)
Lemma create_credential_engine_calls (wallet_handle : Z) (encode : value -> Z)
(wrap_text : string -> IndyError -> string) {W : Type} (eng : engine W)
(w : W) (schema : Schema) (credential_offer credential_request : json)
(revoc_reg_id : option string) (tails_reader_handle : option Z)
(credential_values : gmap string value) (encoded_values : gmap string entry) :
encode_attributes encode (attrNames schema) credential_values ∅
= inr encoded_values ->
engine_calls
  (trace (run eng
            (create_credential wallet_handle encode wrap_text schema
               credential_offer credential_request credential_values
               revoc_reg_id tails_reader_handle) w))
= [Called (issuer_create_credential wallet_handle credential_offer
             credential_request encoded_values revoc_reg_id
             tails_reader_handle)].
Proof.
intros Hloop.
rewrite (create_credential_run _ _ _ eng w _ _ _ _ _ _ _ Hloop).
cbn zeta.
destruct (eng _ _ w) as [[error|[[cj cid] delta]] w']; cbn [fst snd].
- destruct (is_registry_full error); reflexivity.
- reflexivity.
Qed.

(** C1. The encoder follows the two-branch rule: when the canonical string
  of a value reads as a base-10 integer of supported magnitude, [encode]
  is that integer; otherwise it is the digest of the string's UTF-8 bytes
  read as a big-endian unsigned integer, below [2 ^ 256] for a 32-byte
  digest. And when [create_credential] reaches the engine, the entry it
  sends for each schema attribute holds [str] of the attribute's value as
  [raw] and [encode] of it as [encoded]. *)
Theorem C1_two_branch_encoding (digest : list byte -> list byte)
(supported : Z -> bool) (wallet_handle : Z)
(wrap_text : string -> IndyError -> string) {W : Type} (eng : engine W)
(w : W) (schema : Schema) (credential_offer credential_request : json)
(credential_values : gmap string value)
(revoc_reg_id : option string) (tails_reader_handle : option Z) :
let encode := Encoder.encode digest supported in
(forall v z,
    Encoder.parse_int (py_str v) = Some z -> supported z = true ->
    encode v = z)
/\ (forall v,
      (forall z, Encoder.parse_int (py_str v) = Some z ->
                 supported z = false) ->
      encode v = Encoder.be_uint (digest (Encoder.utf8 (py_str v)))
      /\ ((forall bs, length (digest bs) = 32%nat) ->
          0 <= encode v < 2 ^ 256))
/\ ((forall a, a ∈ attrNames schema -> is_Some (credential_values !! a)) ->
    exists encoded_values,
      engine_calls
        (trace (run eng
                  (create_credential wallet_handle encode wrap_text schema
                     credential_offer credential_request credential_values
                     revoc_reg_id tails_reader_handle) w))
      = [Called (issuer_create_credential wallet_handle credential_offer
                   credential_request encoded_values revoc_reg_id
                   tails_reader_handle)]
      /\ forall a, a ∈ attrNames schema ->
           exists v, credential_values !! a = Some v
                     /\ encoded_values !! a
                        = Some {| raw := py_str v; encoded := encode v |}).
Proof.
intros encode. split; [|split].
- intros v z Hparse Hsup. by apply EncoderFacts.encode_integer.
- intros v Hnot.
  assert (Hv : encode v = Encoder.be_uint (digest (Encoder.utf8 (py_str v))))
    by by apply EncoderFacts.encode_digest.
  split; [exact Hv|]. intros Hlen. rewrite Hv.
  pose proof (EncoderFacts.be_uint_bound (digest (Encoder.utf8 (py_str v))))
    as Hb.
  rewrite Hlen in Hb. exact Hb.
- intros Hall.
  destruct (encode_attributes_complete encode _ credential_values ∅ Hall)
    as [encoded_values Hloop].
  exists encoded_values. split.
  + by apply create_credential_engine_calls.
  + apply (encode_attributes_inr _ _ _ _ _ Hloop).
Qed.

Lemma C1_two_branch_encoding_witness :
Sample.encode (VStr "-7") = -7
/\ Sample.encode (VStr "Alice")
   = Encoder.be_uint (Sample.digest32 (Encoder.utf8 "Alice"))
/\ 0 <= Sample.encode (VStr "Alice") < 2 ^ 256
/\ exists encoded_values,
     engine_calls
       (trace (run Sample.obliging
                 (create_credential 1 Sample.encode Sample.wrap_text
                    Sample.schema15 JNull JNull Sample.extra_values
                    None None) 0%nat))
     = [Called (issuer_create_credential 1 JNull JNull encoded_values
                  None None)]
     /\ encoded_values !! "age"
        = Some {| raw := "412"; encoded := 412 |}.
Proof.
destruct (C1_two_branch_encoding Sample.digest32 Sample.int32 1
            Sample.wrap_text Sample.obliging 0%nat Sample.schema15 JNull
            JNull Sample.extra_values None None) as (Hint & Hdig & Hsent).
split; [apply Hint; reflexivity|].
assert (Hnot : forall z, Encoder.parse_int (py_str (VStr "Alice")) = Some z ->
                         Sample.int32 z = false)
  by (intros z Hz; vm_compute in Hz; discriminate Hz).
destruct (Hdig (VStr "Alice") Hnot) as [Hval Hbound].
split; [exact Hval|].
split; [exact (Hbound EncoderFacts.digest32_length)|].
destruct Hsent as (encoded_values & Hcalls & Hentries).
- apply Forall_forall. repeat constructor; by eexists.
- exists encoded_values. split; [exact Hcalls|].
  destruct (Hentries "age") as (v & Hv & Hentry).
  + repeat constructor.
  + vm_compute in Hv. injection Hv as <-. exact Hentry.
Defined.

(** C2. When [credential_values] lacks an attribute of the schema,
  [create_credential] raises [IssuerError] with the message naming the
  first absent attribute, without any call to the engine: the trace is
  empty and the engine's world is untouched. *)
Theorem C2_missing_attribute_raises_before_engine (wallet_handle : Z)
(encode : value -> Z) (wrap_text : string -> IndyError -> string)
{W : Type} (eng : engine W) (w : W) (schema : Schema)
(credential_offer credential_request : json)
(credential_values : gmap string value)
(revoc_reg_id : option string) (tails_reader_handle : option Z)
(a : string) :
a ∈ attrNames schema -> credential_values !! a = None ->
exists before missing after,
  attrNames schema = (before ++ missing :: after)%list
  /\ (forall b, b ∈ before -> is_Some (credential_values !! b))
  /\ credential_values !! missing = None
  /\ create_credential wallet_handle encode wrap_text schema
       credential_offer credential_request credential_values revoc_reg_id
       tails_reader_handle
     = Raise (IssuerExc IssuerError
                ("Provided credential values are missing a value for the schema attribute '"
                   +:+ missing +:+ "'")
                None)
  /\ run eng
       (create_credential wallet_handle encode wrap_text schema
          credential_offer credential_request credential_values
          revoc_reg_id tails_reader_handle) w
     = mkOutcome
         (inl (IssuerExc IssuerError
                 ("Provided credential values are missing a value for the schema attribute '"
                    +:+ missing +:+ "'")
                 None))
         w [].
Proof.
intros Ha Hnone.
destruct (encode_attributes_missing encode _ credential_values ∅ a Ha Hnone)
  as (before & missing & after & Hsplit & Hbefore & Hmiss & Hloop).
exists before, missing, after.
assert (Hraise :
  create_credential wallet_handle encode wrap_text schema credential_offer
    credential_request credential_values revoc_reg_id tails_reader_handle
  = Raise (IssuerExc IssuerError (missing_value_message missing) None))
  by (by apply create_credential_stops).
repeat split; try done.
now rewrite Hraise.
Qed.

Lemma C2_missing_attribute_raises_before_engine_witness :
exists missing,
  missing ∈ attrNames Sample.schema15
  /\ Sample.partial_values !! missing = None
  /\ run Sample.obliging
       (create_credential 1 Sample.encode Sample.wrap_text Sample.schema15
          JNull JNull Sample.partial_values None None) 0%nat
     = mkOutcome
         (inl (IssuerExc IssuerError
                 ("Provided credential values are missing a value for the schema attribute '"
                    +:+ missing +:+ "'")
                 None))
         0%nat [].
Proof.
destruct (C2_missing_attribute_raises_before_engine 1 Sample.encode
            Sample.wrap_text Sample.obliging 0%nat Sample.schema15 JNull
            JNull Sample.partial_values None None "name")
  as (before & missing & after & Hsplit & _ & Hmiss & _ & Hrun).
- repeat constructor.
- reflexivity.
- exists missing. split; [|by split].
  rewrite Hsplit. apply elem_of_app. right. by left.
Defined.

(** C8. When [credential_values] holds every attribute of the schema,
  whatever else it holds, [create_credential] passes its local check and
  calls the engine once; the names in the values it sends are exactly
  those of [schema['attrNames']], so no other key is sent; the call
  succeeds when the engine grants it; and keys outside the schema do not
  change what [create_credential] does. *)
Theorem C8_extra_keys_are_dropped (wallet_handle : Z)
(encode : value -> Z) (wrap_text : string -> IndyError -> string)
{W : Type} (eng : engine W) (w : W) (schema : Schema)
(credential_offer credential_request : json)
(credential_values : gmap string value)
(revoc_reg_id : option string) (tails_reader_handle : option Z) :
(forall a, a ∈ attrNames schema -> is_Some (credential_values !! a)) ->
exists encoded_values,
  dom encoded_values = list_to_set (attrNames schema)
  /\ (forall k, k ∉ attrNames schema -> encoded_values !! k = None)
  /\ engine_calls
       (trace (run eng
                 (create_credential wallet_handle encode wrap_text schema
                    credential_offer credential_request credential_values
                    revoc_reg_id tails_reader_handle) w))
     = [Called (issuer_create_credential wallet_handle credential_offer
                  credential_request encoded_values revoc_reg_id
                  tails_reader_handle)]
  /\ (forall granted,
        (eng _ (issuer_create_credential wallet_handle credential_offer
                  credential_request encoded_values revoc_reg_id
                  tails_reader_handle) w).1 = inr granted ->
        result (run eng
                  (create_credential wallet_handle encode wrap_text schema
                     credential_offer credential_request credential_values
                     revoc_reg_id tails_reader_handle) w)
        = inr (granted.1.1, granted.1.2))
  /\ (forall other_values : gmap string value,
        (forall a, a ∈ attrNames schema ->
                   other_values !! a = credential_values !! a) ->
        create_credential wallet_handle encode wrap_text schema
          credential_offer credential_request other_values revoc_reg_id
          tails_reader_handle
        = create_credential wallet_handle encode wrap_text schema
            credential_offer credential_request credential_values
            revoc_reg_id tails_reader_handle).
Proof.
intros Hall.
destruct (encode_attributes_complete encode _ credential_values ∅ Hall)
  as [encoded_values Hloop].
exists encoded_values.
assert (Hdom : dom encoded_values = list_to_set (attrNames schema)).
{ rewrite (encode_attributes_dom _ _ _ _ _ Hloop), dom_empty_L.
  by rewrite (right_id_L ∅ (∪)). }
split; [exact Hdom|]. split; [|split; [|split]].
- intros k Hk. apply not_elem_of_dom. rewrite Hdom.
  by rewrite elem_of_list_to_set.
- by apply create_credential_engine_calls.
- intros [[cj cid] delta] Hgranted.
  rewrite (create_credential_run _ _ _ eng w _ _ _ _ _ _ _ Hloop).
  cbn zeta. rewrite Hgranted. reflexivity.
- intros other_values Hsame. unfold create_credential.
  by rewrite (encode_attributes_extra encode _ other_values
                credential_values ∅ Hsame).
Qed.

Lemma C8_extra_keys_are_dropped_witness :
exists encoded_values : gmap string entry,
  dom encoded_values = ({["age"; "name"]} : gset string)
  /\ encoded_values !! "shoe_size" = None
  /\ result (run Sample.obliging
               (create_credential 1 Sample.encode Sample.wrap_text
                  Sample.schema15 JNull JNull Sample.extra_values
                  None None) 0%nat)
     = inr (JDict [("signature", JStr "sig")], None).
Proof.
destruct (C8_extra_keys_are_dropped 1 Sample.encode Sample.wrap_text
            Sample.obliging 0%nat Sample.schema15 JNull JNull
            Sample.extra_values None None)
  as (encoded_values & Hdom & Hout & _ & Hgranted & _).
- apply Forall_forall. repeat constructor; by eexists.
- exists encoded_values. split; [|split].
  + rewrite Hdom. simpl. by rewrite (right_id_L ∅ (∪)).
  + apply Hout. simpl. intros Hin.
    repeat (apply elem_of_cons in Hin as [Hin|Hin]; [discriminate Hin|]).
    by apply elem_of_nil in Hin.
  + exact (Hgranted _ eq_refl).
Defined.

(** C3. When the engine refuses the issuance call with the registry-full
  failure, [create_credential] raises
  [IssuerRevocationRegistryFullError]; on any other failure it raises
  [IssuerError] with that failure as the cause. Both are issuer errors,
  and the class of the error raised is
  [IssuerRevocationRegistryFullError] exactly in the registry-full
  case. *)
Theorem C3_registry_full_is_a_kind_of_its_own (wallet_handle : Z)
(encode : value -> Z) (wrap_text : string -> IndyError -> string)
{W : Type} (eng : engine W) (w : W) (schema : Schema)
(credential_offer credential_request : json)
(credential_values : gmap string value)
(revoc_reg_id : option string) (tails_reader_handle : option Z)
(encoded_values : gmap string entry) (error : IndyError) :
encode_attributes encode (attrNames schema) credential_values ∅
= inr encoded_values ->
(eng _ (issuer_create_credential wallet_handle credential_offer
          credential_request encoded_values revoc_reg_id
          tails_reader_handle) w).1 = inl error ->
exists e,
  result (run eng
            (create_credential wallet_handle encode wrap_text schema
               credential_offer credential_request credential_values
               revoc_reg_id tails_reader_handle) w) = inl e
  /\ is_issuer_error e = true
  /\ (error_code error = AnoncredsRevocationRegistryFullError ->
      e = IssuerExc IssuerRevocationRegistryFullError
            "Revocation registry full" None)
  /\ (error_code error <> AnoncredsRevocationRegistryFullError ->
      e = IssuerExc IssuerError
            (wrap_text "Error when issuing credential" error) (Some error))
  /\ (exc_class e = Some IssuerRevocationRegistryFullError
      <-> error_code error = AnoncredsRevocationRegistryFullError)
  /\ (exc_class e = Some IssuerError
      <-> error_code error <> AnoncredsRevocationRegistryFullError).
Proof.
intros Hloop Hreply.
rewrite (create_credential_run _ _ _ eng w _ _ _ _ _ _ _ Hloop).
cbn zeta. rewrite Hreply. unfold is_registry_full.
destruct (decide (error_code error = AnoncredsRevocationRegistryFullError))
  as [Hfull|Hother].
- rewrite bool_decide_eq_true_2 by done.
  eexists. split; [reflexivity|]. repeat split; try done.
- rewrite bool_decide_eq_false_2 by done.
  eexists. split; [reflexivity|]. repeat split; try done.
Qed.

Lemma C3_registry_full_is_a_kind_of_its_own_witness :
result (run (Sample.refusing Sample.registry_full)
          (create_credential 1 Sample.encode Sample.wrap_text
             Sample.schema15 JNull JNull Sample.full_values
             (Some "rev1") (Some 3)) 0%nat)
= inl (IssuerExc IssuerRevocationRegistryFullError
         "Revocation registry full" None)
/\ result (run (Sample.refusing Sample.io_failure)
             (create_credential 1 Sample.encode Sample.wrap_text
                Sample.schema15 JNull JNull Sample.full_values
                (Some "rev1") (Some 3)) 0%nat)
   = inl (IssuerExc IssuerError
            "Error when issuing credential: cannot open"
            (Some Sample.io_failure)).
Proof.
split.
- destruct (C3_registry_full_is_a_kind_of_its_own 1 Sample.encode
              Sample.wrap_text (Sample.refusing Sample.registry_full) 0%nat
              Sample.schema15 JNull JNull Sample.full_values (Some "rev1")
              (Some 3)
              (<["name" := entry_of Sample.encode (VStr "Alice")]>
                 (<["age" := entry_of Sample.encode (VInt 412)]> ∅))
              Sample.registry_full eq_refl eq_refl)
    as (e & Hrun & _ & Hfull & _).
  rewrite Hrun. f_equal. apply Hfull. reflexivity.
- destruct (C3_registry_full_is_a_kind_of_its_own 1 Sample.encode
              Sample.wrap_text (Sample.refusing Sample.io_failure) 0%nat
              Sample.schema15 JNull JNull Sample.full_values (Some "rev1")
              (Some 3)
              (<["name" := entry_of Sample.encode (VStr "Alice")]>
                 (<["age" := entry_of Sample.encode (VInt 412)]> ∅))
              Sample.io_failure eq_refl eq_refl)
    as (e & Hrun & _ & _ & Hother & _).
  rewrite Hrun. f_equal. apply Hother. discriminate.
Defined.

(** C10. When the engine grants the issuance call with a credential, a
  revocation id and a registry delta, [create_credential] returns the
  credential and the revocation id and nothing else: after the engine's
  answer it makes no further call and writes no log line, the world is
  the one the engine left, and an engine answering with another delta
  gives the same result. *)
Theorem C10_delta_is_discarded (wallet_handle : Z)
(encode : value -> Z) (wrap_text : string -> IndyError -> string)
{W : Type} (eng : engine W) (w : W) (schema : Schema)
(credential_offer credential_request : json)
(credential_values : gmap string value)
(revoc_reg_id : option string) (tails_reader_handle : option Z)
(encoded_values : gmap string entry)
(credential_json : json) (credential_revocation_id : option string)
(revoc_reg_delta_json : option json) :
encode_attributes encode (attrNames schema) credential_values ∅
= inr encoded_values ->
(eng _ (issuer_create_credential wallet_handle credential_offer
          credential_request encoded_values revoc_reg_id
          tails_reader_handle) w).1
= inr (credential_json, credential_revocation_id, revoc_reg_delta_json) ->
run eng
  (create_credential wallet_handle encode wrap_text schema credential_offer
     credential_request credential_values revoc_reg_id tails_reader_handle)
  w
= mkOutcome (inr (credential_json, credential_revocation_id))
    (eng _ (issuer_create_credential wallet_handle credential_offer
              credential_request encoded_values revoc_reg_id
              tails_reader_handle) w).2
    [Called (issuer_create_credential wallet_handle credential_offer
               credential_request encoded_values revoc_reg_id
               tails_reader_handle)]
/\ forall {W' : Type} (eng' : engine W') (w' : W') (other_delta : option json),
     (eng' _ (issuer_create_credential wallet_handle credential_offer
                credential_request encoded_values revoc_reg_id
                tails_reader_handle) w').1
     = inr (credential_json, credential_revocation_id, other_delta) ->
     result (run eng'
               (create_credential wallet_handle encode wrap_text schema
                  credential_offer credential_request credential_values
                  revoc_reg_id tails_reader_handle) w')
     = inr (credential_json, credential_revocation_id).
Proof.
intros Hloop Hreply. split.
- rewrite (create_credential_run _ _ _ eng w _ _ _ _ _ _ _ Hloop).
  cbn zeta. rewrite Hreply. reflexivity.
- intros W' eng' w' other_delta Hreply'.
  rewrite (create_credential_run _ _ _ eng' w' _ _ _ _ _ _ _ Hloop).
  cbn zeta. rewrite Hreply'. reflexivity.
Qed.

Lemma C10_delta_is_discarded_witness :
run Sample.obliging
  (create_credential 1 Sample.encode Sample.wrap_text Sample.schema15
     JNull JNull Sample.full_values (Some "rev1") (Some 3)) 0%nat
= mkOutcome (inr (JDict [("signature", JStr "sig")], Some "1")) 1%nat
    [Called (issuer_create_credential 1 JNull JNull
               (<["name" := entry_of Sample.encode (VStr "Alice")]>
                  (<["age" := entry_of Sample.encode (VInt 412)]> ∅))
               (Some "rev1") (Some 3))].
Proof.
exact (proj1 (C10_delta_is_discarded 1 Sample.encode Sample.wrap_text
                Sample.obliging 0%nat Sample.schema15 JNull JNull
                Sample.full_values (Some "rev1") (Some 3)
                (<["name" := entry_of Sample.encode (VStr "Alice")]>
                   (<["age" := entry_of Sample.encode (VInt 412)]> ∅))
                (JDict [("signature", JStr "sig")]) (Some "1")
                (Some (JDict [("ver", JStr "1.0")])) eq_refl eq_refl)).
Defined.

(** ** The wallet probe *)

(** C4. [credential_definition_in_wallet] makes one offer-creation call.
  It returns [False] exactly when that call fails with
  [CommonInvalidStructure] or [WalletItemNotFound], returns [True] when
  the call succeeds, and on any other failure raises [IssuerError] with
  the failure as its cause. *)
Theorem C4_probe_classifies_the_engine_answer (wallet_handle : Z)
(wrap_text : string -> IndyError -> string) {W : Type} (eng : engine W)
(w : W) (credential_definition_id : string) :
let probe :=
  issuer_create_credential_offer wallet_handle credential_definition_id in
let o :=
  run eng
    (credential_definition_in_wallet wallet_handle wrap_text
       credential_definition_id) w in
trace o = [Called probe]
/\ (result o = inr false
    <-> exists error,
          (eng _ probe w).1 = inl error
          /\ (error_code error = CommonInvalidStructure
              \/ error_code error = WalletItemNotFound))
/\ (forall credential_offer_json,
      (eng _ probe w).1 = inr credential_offer_json -> result o = inr true)
/\ (forall error,
      (eng _ probe w).1 = inl error ->
      error_code error <> CommonInvalidStructure ->
      error_code error <> WalletItemNotFound ->
      result o
      = inl (IssuerExc IssuerError
               (wrap_text
                  "Error when checking wallet for credential definition"
                  error)
               (Some error))).
Proof.
intros probe o. subst o. unfold credential_definition_in_wallet, indy.
cbn [mbind prog_bind bind try_except]. rewrite run_Await. fold probe.
destruct (eng _ probe w) as [[error|offer] w'] eqn:Hreply;
  cbn [fst snd bind try_except].
- destruct (decide (error_code error
                      ∈ [CommonInvalidStructure; WalletItemNotFound]))
    as [Hin|Hout].
  + rewrite bool_decide_eq_true_2 by done. cbn.
    assert (Hcode : error_code error = CommonInvalidStructure
                    \/ error_code error = WalletItemNotFound).
    { apply elem_of_cons in Hin as [?|Hin]; [by left|].
      apply elem_of_cons in Hin as [?|Hin]; [by right|].
      by apply elem_of_nil in Hin. }
    split; [done|]. split; [|split].
    * split; [|done]. intros _. by exists error.
    * intros ? [=].
    * intros ? [= <-] H1 H2. by destruct Hcode.
  + rewrite bool_decide_eq_false_2 by done. cbn.
    split; [done|]. split; [|split].
    * split; [intros [=]|]. intros (error' & [= <-] & [Hc|Hc]);
        exfalso; apply Hout; rewrite Hc; [by left|by right; left].
    * intros ? [=].
    * by intros ? [= <-] _ _.
- cbn. split; [done|]. split; [|split].
  + split; [intros [=]|]. by intros (? & [=] & _).
  + done.
  + intros ? [=].
Qed.

Lemma C4_probe_classifies_the_engine_answer_witness :
result (run (Sample.refusing Sample.not_found)
          (credential_definition_in_wallet 1 Sample.wrap_text "did:x:3:CL:15:tag1")
          0%nat) = inr false
/\ result (run Sample.obliging
             (credential_definition_in_wallet 1 Sample.wrap_text "did:x:3:CL:15:tag1")
             0%nat) = inr true
/\ result (run (Sample.refusing Sample.io_failure)
             (credential_definition_in_wallet 1 Sample.wrap_text "did:x:3:CL:15:tag1")
             0%nat)
   = inl (IssuerExc IssuerError
            "Error when checking wallet for credential definition: cannot open"
            (Some Sample.io_failure)).
Proof.
split; [|split].
- destruct (C4_probe_classifies_the_engine_answer 1 Sample.wrap_text
              (Sample.refusing Sample.not_found) 0%nat "did:x:3:CL:15:tag1")
    as (_ & Hfalse & _ & _).
  apply Hfalse. exists Sample.not_found.
  split; [reflexivity|]. right. reflexivity.
- destruct (C4_probe_classifies_the_engine_answer 1 Sample.wrap_text
              Sample.obliging 0%nat "did:x:3:CL:15:tag1")
    as (_ & _ & Htrue & _).
  exact (Htrue _ eq_refl).
- destruct (C4_probe_classifies_the_engine_answer 1 Sample.wrap_text
              (Sample.refusing Sample.io_failure) 0%nat
              "did:x:3:CL:15:tag1")
    as (_ & _ & _ & Hraise).
  apply (Hraise Sample.io_failure eq_refl); discriminate.
Defined.

(** ** Revocation registries *)

(** C9. [create_and_store_revocation_registry] opens the tails writer
  first. When the opening fails, that is the only call made and the
  operation ends with an exception; and whenever the operation returns a
  registry id, the writer was opened, the engine's creation call came
  second with the writer's handle, and the engine granted it with that
  id. *)
Theorem C9_tails_writer_before_registry (wallet_handle : Z)
(DEFAULT_ISSUANCE_TYPE : string)
(wrap_text : string -> IndyError -> string) {W : Type} (eng : engine W)
(w : W) (origin_did cred_def_id revoc_def_type tag : string)
(max_cred_num : Z) (tails_base_path : string)
(issuance_type : option string) :
let opening := open_writer "default" tails_base_path "" in
let creation tails_writer :=
  issuer_create_and_store_revoc_reg wallet_handle origin_did revoc_def_type
    tag cred_def_id max_cred_num
    (or_default issuance_type DEFAULT_ISSUANCE_TYPE) tails_writer in
let o :=
  run eng
    (create_and_store_revocation_registry wallet_handle
       DEFAULT_ISSUANCE_TYPE wrap_text origin_did cred_def_id
       revoc_def_type tag max_cred_num tails_base_path issuance_type) w in
(exists rest, trace o = Called opening :: rest)
/\ (forall err,
      (eng _ opening w).1 = inl err ->
      trace o = [Called opening]
      /\ world o = (eng _ opening w).2
      /\ exists e, result o = inl e)
/\ (forall revoc_reg_id revoc_reg_def_json revoc_reg_entry_json,
      result o = inr (revoc_reg_id, revoc_reg_def_json, revoc_reg_entry_json) ->
      exists tails_writer,
        (eng _ opening w).1 = inr tails_writer
        /\ trace o = [Called opening; Called (creation tails_writer)]
        /\ (eng _ (creation tails_writer) (eng _ opening w).2).1
           = inr (revoc_reg_id, revoc_reg_def_json, revoc_reg_entry_json)).
Proof.
intros opening creation o. subst o.
unfold create_and_store_revocation_registry, IndyErrorHandler, indy.
cbn [mbind prog_bind bind try_except]. rewrite run_Await. fold opening.
destruct (eng _ opening w) as [[err|tails_writer] w1];
  cbn [fst snd bind try_except].
- cbn. split; [by eexists|]. split.
  + intros ? _. split; [done|]. split; [done|]. by eexists.
  + intros ? ? ? [=].
- rewrite run_Await. fold (creation tails_writer).
  destruct (eng _ (creation tails_writer) w1) as [[err|[[id def] ent]] w2]
    eqn:Hcreation; cbn.
  + split; [by eexists|]. split; [intros ? [=]|]. intros ? ? ? [=].
  + split; [by eexists|]. split; [intros ? [=]|].
    intros ? ? ? [= <- <- <-]. exists tails_writer.
    split; [done|]. split; [done|]. by rewrite Hcreation.
Qed.

Lemma C9_tails_writer_before_registry_witness :
trace (run (Sample.no_tails Sample.io_failure)
         (create_and_store_revocation_registry 1 "ISSUANCE_BY_DEFAULT"
            Sample.wrap_text "did:x" "did:x:3:CL:15:tag1" "CL_ACCUM"
            "rev1" 100 "/tmp/tails" None) 0%nat)
= [Called (open_writer "default" "/tmp/tails" "")]
/\ trace (run Sample.obliging
            (create_and_store_revocation_registry 1 "ISSUANCE_BY_DEFAULT"
               Sample.wrap_text "did:x" "did:x:3:CL:15:tag1" "CL_ACCUM"
               "rev1" 100 "/tmp/tails" None) 0%nat)
   = [Called (open_writer "default" "/tmp/tails" "");
      Called (issuer_create_and_store_revoc_reg 1 "did:x" "CL_ACCUM" "rev1"
                "did:x:3:CL:15:tag1" 100 "ISSUANCE_BY_DEFAULT" 7)].
Proof.
split.
- destruct (C9_tails_writer_before_registry 1 "ISSUANCE_BY_DEFAULT"
              Sample.wrap_text (Sample.no_tails Sample.io_failure) 0%nat
              "did:x" "did:x:3:CL:15:tag1" "CL_ACCUM" "rev1" 100
              "/tmp/tails" None) as (_ & Hfail & _).
  destruct (Hfail Sample.io_failure eq_refl) as (Htrace & _ & _).
  exact Htrace.
- destruct (C9_tails_writer_before_registry 1 "ISSUANCE_BY_DEFAULT"
              Sample.wrap_text Sample.obliging 0%nat
              "did:x" "did:x:3:CL:15:tag1" "CL_ACCUM" "rev1" 100
              "/tmp/tails" None) as (_ & _ & Hgranted).
  destruct (Hgranted "did:x:4:rev1" (JDict []) (JDict []) eq_refl)
    as (tails_writer & Hopen & Htrace & _).
  injection Hopen as <-. exact Htrace.
Defined.

(** ** Identifiers *)

Example make_schema_id_example :
make_schema_id "did:x" "name" "1.0" = "did:x:2:name:1.0".
Proof. reflexivity. Qed.

Example make_credential_definition_id_example :
make_credential_definition_id "default" "CL" "did:x" Sample.schema15
  (Some "CL") (Some "tag1")
= "did:x:3:CL:15:tag1".
Proof. reflexivity. Qed.

Lemma or_default_given (s dflt : string) : s <> "" -> or_default (Some s) dflt = s.
Proof. destruct s; [congruence|reflexivity]. Qed.

(** The engine call of [create_and_store_credential_definition]. *)
Lemma create_and_store_credential_definition_trace (wallet_handle : Z)
(DEFAULT_CRED_DEF_TAG DEFAULT_SIGNATURE_TYPE : string)
(wrap_text : string -> IndyError -> string) {W : Type} (eng : engine W)
(w : W) (origin_did : string) (schema : Schema)
(signature_type tag : option string) (support_revocation : bool) :
trace (run eng
         (create_and_store_credential_definition wallet_handle
            DEFAULT_CRED_DEF_TAG DEFAULT_SIGNATURE_TYPE wrap_text origin_did
            schema signature_type tag support_revocation) w)
= [Called (issuer_create_and_store_credential_def wallet_handle origin_did
             schema (or_default tag DEFAULT_CRED_DEF_TAG)
             (or_default signature_type DEFAULT_SIGNATURE_TYPE)
             support_revocation)].
Proof.
unfold create_and_store_credential_definition, IndyErrorHandler, indy.
cbn [mbind prog_bind bind try_except]. rewrite run_Await.
destruct (eng _ _ w) as [[err|[id doc]] w']; reflexivity.
Qed.

(** C7, as the claim states it, fails for an empty signature type: the
  deriver puts the default in its place. *)
Lemma C7_empty_signature_type_counterexample :
make_credential_definition_id "default" "CL" "did:x" Sample.schema15
  (Some "") (Some "tag1")
<> Spec.credDefId "did:x" Sample.schema15 "" "tag1".
Proof. discriminate. Qed.

(** C7, amended. [make_schema_id] returns
  ["{origin_did}:2:{schema_name}:{schema_version}"].
  [make_credential_definition_id] returns
  ["{origin_did}:3:{S}:{schema['seqNo']}:{T}"], where [S] is the signature
  type given when one is given and not empty and [DEFAULT_SIGNATURE_TYPE]
  when it is omitted or empty, and [T] is the tag given when one is given
  and not empty and [DEFAULT_CRED_DEF_TAG] when it is omitted or empty,
  each on its own. [S] and [T] are the signature type and the tag
  [create_and_store_credential_definition] passes to the engine for the
  same arguments. *)
Theorem C7_identifier_formats (wallet_handle : Z)
(DEFAULT_CRED_DEF_TAG DEFAULT_SIGNATURE_TYPE : string)
(wrap_text : string -> IndyError -> string) {W : Type} (eng : engine W)
(w : W) (origin_did : string) (schema : Schema) :
(forall schema_name schema_version,
    make_schema_id origin_did schema_name schema_version
    = Spec.schemaId origin_did schema_name schema_version)
/\ (forall signature_type tag,
      signature_type <> "" -> tag <> "" ->
      make_credential_definition_id DEFAULT_CRED_DEF_TAG
        DEFAULT_SIGNATURE_TYPE origin_did schema (Some signature_type)
        (Some tag)
      = Spec.credDefId origin_did schema signature_type tag)
/\ (forall signature_type tag support_revocation,
      exists used_signature_type used_tag,
        make_credential_definition_id DEFAULT_CRED_DEF_TAG
          DEFAULT_SIGNATURE_TYPE origin_did schema signature_type tag
        = Spec.credDefId origin_did schema used_signature_type used_tag
        /\ (forall given, signature_type = Some given -> given <> "" ->
            used_signature_type = given)
        /\ (signature_type = None \/ signature_type = Some "" ->
            used_signature_type = DEFAULT_SIGNATURE_TYPE)
        /\ (forall given, tag = Some given -> given <> "" ->
            used_tag = given)
        /\ (tag = None \/ tag = Some "" -> used_tag = DEFAULT_CRED_DEF_TAG)
        /\ trace (run eng
                    (create_and_store_credential_definition wallet_handle
                       DEFAULT_CRED_DEF_TAG DEFAULT_SIGNATURE_TYPE wrap_text
                       origin_did schema signature_type tag
                       support_revocation) w)
           = [Called (issuer_create_and_store_credential_def wallet_handle
                        origin_did schema used_tag used_signature_type
                        support_revocation)]).
Proof.
split; [|split].
- reflexivity.
- intros signature_type tag Hs Ht. unfold make_credential_definition_id.
  by rewrite !or_default_given.
- intros signature_type tag support_revocation.
  exists (or_default signature_type DEFAULT_SIGNATURE_TYPE),
    (or_default tag DEFAULT_CRED_DEF_TAG).
  split; [reflexivity|].
  split; [intros given -> Hgiven; by apply or_default_given|].
  split; [intros [->| ->]; reflexivity|].
  split; [intros given -> Hgiven; by apply or_default_given|].
  split; [intros [->| ->]; reflexivity|].
  apply create_and_store_credential_definition_trace.
Qed.

Lemma C7_identifier_formats_witness :
make_credential_definition_id "default" "CL" "did:x" Sample.schema15
  (Some "CL") (Some "tag1")
= "did:x:3:CL:15:tag1"
/\ make_credential_definition_id "default" "CL" "did:x" Sample.schema15
     None (Some "tag1")
   = "did:x:3:CL:15:tag1"
/\ make_credential_definition_id "default" "CL" "did:x" Sample.schema15
     (Some "CL2") (Some "")
   = "did:x:3:CL2:15:default"
/\ trace (run Sample.obliging
            (create_and_store_credential_definition 1 "default" "CL"
               Sample.wrap_text "did:x" Sample.schema15 None (Some "tag1")
               false) 0%nat)
   = [Called (issuer_create_and_store_credential_def 1 "did:x"
                Sample.schema15 "tag1" "CL" false)].
Proof.
destruct (C7_identifier_formats 1 "default" "CL" Sample.wrap_text
            Sample.obliging 0%nat "did:x" Sample.schema15)
  as (_ & Hgiven & Hany).
split; [apply (Hgiven "CL" "tag1"); discriminate|].
destruct (Hany None (Some "tag1") false)
  as (s1 & t1 & Hid1 & _ & Hs1 & Ht1 & _ & Htrace1).
destruct (Hany (Some "CL2") (Some "") false)
  as (s2 & t2 & Hid2 & Hs2 & _ & _ & Ht2 & _).
rewrite (Hs1 (or_introl eq_refl)) in Hid1, Htrace1.
rewrite (Ht1 "tag1" eq_refl ltac:(discriminate)) in Hid1, Htrace1.
rewrite (Hs2 "CL2" eq_refl ltac:(discriminate)) in Hid2.
rewrite (Ht2 (or_intror eq_refl)) in Hid2.
split; [exact Hid1|]. split; [exact Hid2|]. exact Htrace1.
Defined.

(** ** The error boundary *)

(** One call under [IndyErrorHandler]: a failure of the call comes out as
  an error of the class asked for, with the failure as its cause. *)
Lemma run_handled_call (wrap_text : string -> IndyError -> string)
{W X : Type} (eng : engine W) (w : W) (err_msg : string)
(error_cls : issuer_class) (c : call X) :
run eng (IndyErrorHandler wrap_text err_msg error_cls (indy c)) w
= mkOutcome
    (match (eng _ c w).1 with
     | inl err_value =>
         inl (IssuerExc error_cls (wrap_text err_msg err_value)
                (Some err_value))
     | inr x => inr x
     end)
    (eng _ c w).2 [Called c].
Proof.
unfold IndyErrorHandler, indy. cbn [try_except]. rewrite run_Await.
destruct (eng _ c w) as [[err_value|x] w']; reflexivity.
Qed.

(** The handled operations raise only issuer errors that carry the libindy
  failure as their cause. *)
Lemma schema_and_definition_errors_are_wrapped (wallet_handle : Z)
(DEFAULT_CRED_DEF_TAG DEFAULT_SIGNATURE_TYPE : string)
(wrap_text : string -> IndyError -> string) {W : Type} (eng : engine W)
(w : W) (e : exc) :
(forall origin_did schema_name schema_version attribute_names,
    result (run eng
              (create_and_store_schema wrap_text origin_did schema_name
                 schema_version attribute_names) w) = inl e ->
    wrapped e)
/\ (forall origin_did schema signature_type tag support_revocation,
      result (run eng
                (create_and_store_credential_definition wallet_handle
                   DEFAULT_CRED_DEF_TAG DEFAULT_SIGNATURE_TYPE wrap_text
                   origin_did schema signature_type tag support_revocation)
                w) = inl e ->
      wrapped e)
/\ (forall credential_definition_id,
      result (run eng
                (create_credential_offer wallet_handle wrap_text
                   credential_definition_id) w) = inl e ->
      wrapped e)
/\ (forall revoc_reg_id tails_reader_handle cred_revoc_id,
      result (run eng
                (revoke_credential wallet_handle wrap_text revoc_reg_id
                   tails_reader_handle cred_revoc_id) w) = inl e ->
      wrapped e).
Proof.
unfold create_and_store_schema, create_and_store_credential_definition,
  create_credential_offer, revoke_credential, IndyErrorHandler, indy.
cbn [mbind prog_bind bind try_except].
repeat split; intros; rewrite run_Await in *;
  match goal with
  | H : context [eng ?X ?c w] |- _ =>
      destruct (eng X c w) as [[err|x] w'];
      cbn in H; try (destruct x as [? ?]); try discriminate H;
      injection H as <-
  end; (done || by eexists).
Qed.

(** A failure to open the tails writer leaves
  [create_and_store_revocation_registry] as the libindy failure it is. *)
Lemma open_writer_failure_propagates (wallet_handle : Z)
(DEFAULT_ISSUANCE_TYPE : string)
(wrap_text : string -> IndyError -> string) {W : Type} (eng : engine W)
(w : W) (origin_did cred_def_id revoc_def_type tag : string)
(max_cred_num : Z) (tails_base_path : string)
(issuance_type : option string) (err : IndyError) :
(eng _ (open_writer "default" tails_base_path "") w).1 = inl err ->
result (run eng
          (create_and_store_revocation_registry wallet_handle
             DEFAULT_ISSUANCE_TYPE wrap_text origin_did cred_def_id
             revoc_def_type tag max_cred_num tails_base_path issuance_type)
          w)
= inl (IndyExc err).
Proof.
intros Hreply.
unfold create_and_store_revocation_registry, indy.
cbn [mbind prog_bind bind]. rewrite run_Await. cbn zeta.
rewrite Hreply. reflexivity.
Qed.

(** C5. The claim fails on [create_and_store_revocation_registry]: when
  the tails store cannot open a writer, the libindy failure leaves the
  issuer as it came, not as an [IssuerError]. *)
Theorem C5_open_writer_failure_leaves_unwrapped :
let o :=
  run (Sample.no_tails Sample.io_failure)
    (create_and_store_revocation_registry 1 "ISSUANCE_BY_DEFAULT"
       Sample.wrap_text "did:x" "did:x:3:CL:15:tag1" "CL_ACCUM" "rev1" 100
       "/tmp/tails" None) 0%nat in
result o = inl (IndyExc Sample.io_failure)
/\ trace o = [Called (open_writer "default" "/tmp/tails" "")]
/\ is_issuer_error (IndyExc Sample.io_failure) = false.
Proof. repeat split. Qed.

(** ** Identifiers: when two of them coincide *)

Lemma append_cons (x : ascii) (a b : string) :
  String x a +:+ b = String x (a +:+ b).
Proof. reflexivity. Qed.

Lemma string_append_assoc (a b c : string) :
  (a +:+ b) +:+ c = a +:+ b +:+ c.
Proof.
  induction a as [|x a IH]; [reflexivity|].
  rewrite !append_cons. by f_equal.
Qed.

Lemma colon_free_separator (a b : string) :
  colon_free (a +:+ String ":" b) = false.
Proof.
  induction a as [|x a IH]; [reflexivity|].
  rewrite append_cons. cbn [colon_free]. rewrite IH. apply andb_false_r.
Qed.

(** A string is cut at its last colon in one way only. *)
Lemma cut_at_last_colon (a a' v v' : string) :
  colon_free v = true -> colon_free v' = true ->
  a +:+ String ":" v = a' +:+ String ":" v' ->
  a = a' /\ v = v'.
Proof.
  intros Hv Hv'. revert a'.
  induction a as [|x a IH]; intros [|x' a']; rewrite ?append_cons;
    change ("" +:+ String ":" v) with (String ":" v);
    change ("" +:+ String ":" v') with (String ":" v'); intros H;
    injection H as ?; subst.
  - done.
  - by rewrite colon_free_separator in Hv.
  - by rewrite colon_free_separator in Hv'.
  - destruct (IH a') as [-> ->]; [assumption|done].
Qed.

(** X1. A schema id made of a name and a version without colon comes from
    one origin DID, name and version only; the DID may hold colons. *)
Theorem make_schema_id_injective
  (origin_did origin_did' schema_name schema_name' : string)
  (schema_version schema_version' : string) :
  colon_free schema_name = true -> colon_free schema_name' = true ->
  colon_free schema_version = true -> colon_free schema_version' = true ->
  make_schema_id origin_did schema_name schema_version
  = make_schema_id origin_did' schema_name' schema_version' ->
  origin_did = origin_did' /\ schema_name = schema_name'
  /\ schema_version = schema_version'.
Proof.
  intros Hn Hn' Hv Hv'. unfold make_schema_id. intros H.
  assert (Hlast : forall d n v,
             d +:+ ":2:" +:+ n +:+ ":" +:+ v
             = (d +:+ ":2:" +:+ n) +:+ String ":" v)
    by (intros; by rewrite !string_append_assoc).
  assert (Hmid : forall d n,
             d +:+ ":2:" +:+ n = (d +:+ String ":" "2") +:+ String ":" n)
    by (intros; by rewrite string_append_assoc).
  rewrite !Hlast in H.
  apply cut_at_last_colon in H as [H ->]; [|assumption..].
  rewrite !Hmid in H.
  apply cut_at_last_colon in H as [H ->]; [|assumption..].
  apply cut_at_last_colon in H as [-> _]; done.
Qed.

(** With colons in a name the same id has two readings. *)
Example make_schema_id_collision :
  make_schema_id "a" "b:2:c" "d" = make_schema_id "a:2:b" "c" "d".
Proof. reflexivity. Qed.

Lemma make_schema_id_injective_witness :
  "did:x" = "did:x" /\ "name" = "name" /\ "1.0" = "1.0".
Proof.
  apply (make_schema_id_injective "did:x" "did:x" "name" "name" "1.0" "1.0");
    reflexivity.
Defined.

Lemma digits_colon_free (d : Decimal.uint) :
  colon_free (NilEmpty.string_of_uint d) = true.
Proof. induction d; simpl; auto. Qed.

Lemma str_of_int_colon_free (z : Z) : colon_free (str_of_int z) = true.
Proof.
  unfold str_of_int.
  destruct (Z.to_int z) as [d|d]; simpl;
    destruct d; try reflexivity; apply digits_colon_free.
Qed.

Lemma str_of_int_injective (z z' : Z) : str_of_int z = str_of_int z' -> z = z'.
Proof.
  intros H. pose proof (EncoderFacts.parse_int_str_of_int z) as Hz.
  rewrite H, EncoderFacts.parse_int_str_of_int in Hz. by injection Hz.
Qed.

(** X2. For schemas numbered by integers, a credential definition id
    whose signature type and tag (after defaulting) hold no colon comes
    from one origin DID, signature type, schema number and tag only. *)
Theorem make_credential_definition_id_injective
  (DEFAULT_CRED_DEF_TAG DEFAULT_SIGNATURE_TYPE : string)
  (origin_did origin_did' : string) (schema schema' : Schema)
  (signature_type signature_type' tag tag' : option string) (n n' : Z) :
  seqNo schema = VInt n -> seqNo schema' = VInt n' ->
  colon_free (or_default signature_type DEFAULT_SIGNATURE_TYPE) = true ->
  colon_free (or_default signature_type' DEFAULT_SIGNATURE_TYPE) = true ->
  colon_free (or_default tag DEFAULT_CRED_DEF_TAG) = true ->
  colon_free (or_default tag' DEFAULT_CRED_DEF_TAG) = true ->
  make_credential_definition_id DEFAULT_CRED_DEF_TAG DEFAULT_SIGNATURE_TYPE
    origin_did schema signature_type tag
  = make_credential_definition_id DEFAULT_CRED_DEF_TAG DEFAULT_SIGNATURE_TYPE
      origin_did' schema' signature_type' tag' ->
  origin_did = origin_did'
  /\ or_default signature_type DEFAULT_SIGNATURE_TYPE
     = or_default signature_type' DEFAULT_SIGNATURE_TYPE
  /\ n = n'
  /\ or_default tag DEFAULT_CRED_DEF_TAG = or_default tag' DEFAULT_CRED_DEF_TAG.
Proof.
  intros Hn Hn' Hs Hs' Ht Ht'. unfold make_credential_definition_id.
  rewrite Hn, Hn'. cbn [py_str].
  set (s := or_default signature_type DEFAULT_SIGNATURE_TYPE) in *.
  set (s' := or_default signature_type' DEFAULT_SIGNATURE_TYPE) in *.
  set (t := or_default tag DEFAULT_CRED_DEF_TAG) in *.
  set (t' := or_default tag' DEFAULT_CRED_DEF_TAG) in *.
  intros H.
  assert (Hlast : forall d a b c,
             d +:+ ":3:" +:+ a +:+ ":" +:+ b +:+ ":" +:+ c
             = (d +:+ ":3:" +:+ a +:+ ":" +:+ b) +:+ String ":" c)
    by (intros; by rewrite !string_append_assoc).
  assert (Hseq : forall d a b,
             d +:+ ":3:" +:+ a +:+ ":" +:+ b
             = (d +:+ ":3:" +:+ a) +:+ String ":" b)
    by (intros; by rewrite !string_append_assoc).
  assert (Hsig : forall d a,
             d +:+ ":3:" +:+ a = (d +:+ String ":" "3") +:+ String ":" a)
    by (intros; by rewrite string_append_assoc).
  rewrite !Hlast in H.
  apply cut_at_last_colon in H as [H Htag]; [|assumption..].
  rewrite !Hseq in H.
  apply cut_at_last_colon in H as [H Hnum];
    [|apply str_of_int_colon_free..].
  rewrite !Hsig in H.
  apply cut_at_last_colon in H as [H Hsigtype]; [|assumption..].
  apply cut_at_last_colon in H as [Hdid _]; [|done..].
  apply str_of_int_injective in Hnum. done.
Qed.

Lemma make_credential_definition_id_injective_witness :
  "did:x" = "did:x" /\ "CL" = "CL" /\ 15 = 15 /\ "tag1" = "tag1".
Proof.
  apply (make_credential_definition_id_injective "default" "CL" "did:x"
           "did:x" Sample.schema15 Sample.schema15 None (Some "CL")
           (Some "tag1") (Some "tag1") 15 15); reflexivity.
Defined.

(** ** Issuance: the local check and the order of the names *)

Lemma encode_attributes_inl (encode : value -> Z) (attrs : list string)
  (vals : gmap string value) (acc : gmap string entry) (e : exc) :
  encode_attributes encode attrs vals acc = inl e ->
  exists a, a ∈ attrs /\ vals !! a = None
            /\ e = IssuerExc IssuerError (missing_value_message a) None.
Proof.
  revert acc. induction attrs as [|b attrs IH]; intros acc; simpl.
  - intros [=].
  - destruct (vals !! b) as [v|] eqn:Hb.
    + intros H. destruct (IH _ H) as (a & Ha & Hnone & He).
      exists a. split; [by right|done].
    + intros [= <-]. exists b. split; [by left|done].
Qed.

Lemma encode_attributes_same_names (encode : value -> Z)
  (attrs attrs' : list string) (vals : gmap string value)
  (acc enc : gmap string entry) :
  (forall a, a ∈ attrs <-> a ∈ attrs') ->
  encode_attributes encode attrs vals acc = inr enc ->
  encode_attributes encode attrs' vals acc = inr enc.
Proof.
  intros Hsame Hloop.
  destruct (encode_attributes_inr _ _ _ _ _ Hloop) as [Hin Hout].
  destruct (encode_attributes_complete encode attrs' vals acc) as [enc' Hloop'].
  { intros a Ha. apply Hsame in Ha. destruct (Hin a Ha) as (v & -> & _).
    by eexists. }
  rewrite Hloop'. f_equal.
  destruct (encode_attributes_inr _ _ _ _ _ Hloop') as [Hin' Hout'].
  apply map_eq. intros a. destruct (decide (a ∈ attrs)) as [Ha|Ha].
  - destruct (Hin a Ha) as (v & Hv & ->).
    destruct (Hin' a (proj1 (Hsame a) Ha)) as (v' & Hv' & ->). congruence.
  - rewrite (Hout a Ha). apply Hout'. by rewrite <- Hsame.
Qed.

(** X3. The loop of [create_credential] builds the same dict for two lists
  of attribute names that hold the same names, in any order and with any
  repetition: when it completes for one list it completes for the other,
  and under every key the two dicts hold the same entry. The order in
  which the keys were inserted, and so the order of the keys in the JSON
  text sent to the engine, is outside this statement. *)
Theorem encoded_values_ignore_attribute_order (encode : value -> Z)
(attrs attrs' : list string) (credential_values : gmap string value)
(encoded_values : gmap string entry) :
(forall a, a ∈ attrs <-> a ∈ attrs') ->
encode_attributes encode attrs credential_values ∅ = inr encoded_values ->
exists encoded_values',
  encode_attributes encode attrs' credential_values ∅ = inr encoded_values'
  /\ forall k, encoded_values' !! k = encoded_values !! k.
Proof.
intros Hsame Hloop. exists encoded_values.
split; [|done]. by apply (encode_attributes_same_names _ attrs).
Qed.

Lemma encoded_values_ignore_attribute_order_witness :
exists encoded_values' : gmap string entry,
  encode_attributes Sample.encode ["name"; "age"; "name"]
    Sample.extra_values ∅ = inr encoded_values'
  /\ forall k,
       encoded_values' !! k
       = (<["name" := entry_of Sample.encode (VStr "Alice")]>
            (<["age" := entry_of Sample.encode (VInt 412)]> ∅)
          : gmap string entry) !! k.
Proof.
apply (encoded_values_ignore_attribute_order Sample.encode ["age"; "name"]).
- intros a. rewrite !elem_of_cons, elem_of_nil. tauto.
- reflexivity.
Defined.

(** X4. [create_credential] reaches the engine exactly when no schema
    attribute is absent from [credential_values]: its trace holds no
    engine call if and only if some attribute of the schema has no value. *)
Theorem create_credential_calls_engine_iff_complete (wallet_handle : Z)
  (encode : value -> Z) (wrap_text : string -> IndyError -> string)
  {W : Type} (eng : engine W) (w : W) (schema : Schema)
  (credential_offer credential_request : json)
  (credential_values : gmap string value)
  (revoc_reg_id : option string) (tails_reader_handle : option Z) :
  engine_calls
    (trace (run eng
              (create_credential wallet_handle encode wrap_text schema
                 credential_offer credential_request credential_values
                 revoc_reg_id tails_reader_handle) w)) = []
  <-> exists a, a ∈ attrNames schema /\ credential_values !! a = None.
Proof.
  destruct (encode_attributes encode (attrNames schema) credential_values ∅)
    as [e|enc] eqn:Hloop.
  - split; [|intros _].
    { intros _. apply encode_attributes_inl in Hloop as (a & Ha & Hnone & _).
      by exists a. }
    by rewrite (create_credential_stops _ _ _ _ _ _ _ _ _ _ Hloop).
  - rewrite (create_credential_engine_calls _ _ _ eng w _ _ _ _ _ _ _ Hloop).
    split; [intros [=]|]. intros (a & Ha & Hnone).
    destruct (encode_attributes_inr _ _ _ _ _ Hloop) as [Hin _].
    destruct (Hin a Ha) as (v & Hv & _). congruence.
Qed.

(** ** Every method, against every engine *)

(** A handled call followed by the return of what it gave. *)
Lemma run_handled_bind (wrap_text : string -> IndyError -> string)
  {W X R : Type} (eng : engine W) (w : W) (err_msg : string)
  (error_cls : issuer_class) (c : call X) (f : X -> prog R) (g : X -> R) :
  (forall x, f x = Ret (g x)) ->
  run eng (IndyErrorHandler wrap_text err_msg error_cls (indy c) ≫= f) w
  = mkOutcome
      (match (eng _ c w).1 with
       | inl err_value =>
           inl (IssuerExc error_cls (wrap_text err_msg err_value)
                  (Some err_value))
       | inr x => inr (g x)
       end)
      (eng _ c w).2 [Called c].
Proof.
  intros Hf. unfold IndyErrorHandler, indy.
  cbn [mbind prog_bind bind try_except]. rewrite run_Await.
  destruct (eng _ c w) as [[err_value|x] w']; cbn; [reflexivity|].
  rewrite Hf. reflexivity.
Qed.

(** An unhandled call followed by more. *)
Lemma run_indy_bind {W X R : Type} (eng : engine W) (w : W) (c : call X)
  (f : X -> prog R) :
  run eng (indy c ≫= f) w
  = match (eng _ c w).1 with
    | inl err => mkOutcome (inl (IndyExc err)) (eng _ c w).2 [Called c]
    | inr x =>
        let o := run eng (f x) (eng _ c w).2 in
        mkOutcome (result o) (world o) (Called c :: trace o)
    end.
Proof.
  unfold indy. cbn [mbind prog_bind bind]. rewrite run_Await.
  destruct (eng _ c w) as [[err|x] w']; reflexivity.
Qed.

Section AgainstAnEngine.

Variable wallet_handle : Z.
Variable DEFAULT_CRED_DEF_TAG : string.
Variable DEFAULT_ISSUANCE_TYPE : string.
Variable DEFAULT_SIGNATURE_TYPE : string.
Variable encode : value -> Z.
Variable wrap_text : string -> IndyError -> string.
Context {W : Type}.
Variable eng : engine W.
Variable w : W.

Lemma run_create_and_store_schema
  (origin_did schema_name schema_version : string)
  (attribute_names : list string) :
  run eng
    (create_and_store_schema wrap_text origin_did schema_name schema_version
       attribute_names) w
  = let c := issuer_create_schema origin_did schema_name schema_version
               attribute_names in
    mkOutcome
      (match (eng _ c w).1 with
       | inl err =>
           inl (IssuerExc IssuerError
                  (wrap_text "Error when creating schema" err) (Some err))
       | inr x => inr x
       end)
      (eng _ c w).2 [Called c].
Proof.
  unfold create_and_store_schema.
  apply (run_handled_bind wrap_text eng w _ _ _ _ (fun x => x)).
  by intros [? ?].
Qed.

Lemma run_create_and_store_credential_definition (origin_did : string)
  (schema : Schema) (signature_type tag : option string)
  (support_revocation : bool) :
  run eng
    (create_and_store_credential_definition wallet_handle
       DEFAULT_CRED_DEF_TAG DEFAULT_SIGNATURE_TYPE wrap_text origin_did schema
       signature_type tag support_revocation) w
  = let c := issuer_create_and_store_credential_def wallet_handle origin_did
               schema (or_default tag DEFAULT_CRED_DEF_TAG)
               (or_default signature_type DEFAULT_SIGNATURE_TYPE)
               support_revocation in
    mkOutcome
      (match (eng _ c w).1 with
       | inl err =>
           inl (IssuerExc IssuerError
                  (wrap_text "Error when creating credential definition" err)
                  (Some err))
       | inr x => inr x
       end)
      (eng _ c w).2 [Called c].
Proof.
  unfold create_and_store_credential_definition.
  apply (run_handled_bind wrap_text eng w _ _ _ _ (fun x => x)).
  by intros [? ?].
Qed.

Lemma run_create_credential_offer (credential_definition_id : string) :
  run eng
    (create_credential_offer wallet_handle wrap_text credential_definition_id)
    w
  = let c := issuer_create_credential_offer wallet_handle
               credential_definition_id in
    mkOutcome
      (match (eng _ c w).1 with
       | inl err =>
           inl (IssuerExc IssuerError
                  (wrap_text "Exception when creating credential offer" err)
                  (Some err))
       | inr x => inr x
       end)
      (eng _ c w).2 [Called c].
Proof.
  unfold create_credential_offer.
  by apply (run_handled_bind wrap_text eng w _ _ _ _ (fun x => x)).
Qed.

Lemma run_revoke_credential (revoc_reg_id : string) (tails_reader_handle : Z)
  (cred_revoc_id : string) :
  run eng
    (revoke_credential wallet_handle wrap_text revoc_reg_id
       tails_reader_handle cred_revoc_id) w
  = let c := issuer_revoke_credential wallet_handle tails_reader_handle
               revoc_reg_id cred_revoc_id in
    mkOutcome
      (match (eng _ c w).1 with
       | inl err =>
           inl (IssuerExc IssuerError
                  (wrap_text "Exception when revoking credential" err)
                  (Some err))
       | inr x => inr x
       end)
      (eng _ c w).2 [Called c].
Proof.
  unfold revoke_credential.
  by apply (run_handled_bind wrap_text eng w _ _ _ _ (fun x => x)).
Qed.

Lemma run_credential_definition_in_wallet (credential_definition_id : string) :
  run eng
    (credential_definition_in_wallet wallet_handle wrap_text
       credential_definition_id) w
  = let c := issuer_create_credential_offer wallet_handle
               credential_definition_id in
    mkOutcome
      (match (eng _ c w).1 with
       | inl err =>
           if bool_decide (error_code err
                             ∈ [CommonInvalidStructure; WalletItemNotFound])
           then inr false
           else inl (IssuerExc IssuerError
                       (wrap_text
                          "Error when checking wallet for credential definition"
                          err)
                       (Some err))
       | inr _ => inr true
       end)
      (eng _ c w).2 [Called c].
Proof.
  unfold credential_definition_in_wallet, indy.
  cbn [mbind prog_bind bind try_except]. rewrite run_Await. cbn zeta.
  destruct (eng _ _ w) as [[err|offer] w']; cbn [fst snd bind try_except].
  - destruct (bool_decide _); reflexivity.
  - reflexivity.
Qed.

Lemma run_create_and_store_revocation_registry
  (origin_did cred_def_id revoc_def_type tag : string) (max_cred_num : Z)
  (tails_base_path : string) (issuance_type : option string) :
  run eng
    (create_and_store_revocation_registry wallet_handle DEFAULT_ISSUANCE_TYPE
       wrap_text origin_did cred_def_id revoc_def_type tag max_cred_num
       tails_base_path issuance_type) w
  = let opening := open_writer "default" tails_base_path "" in
    match (eng _ opening w).1 with
    | inl err => mkOutcome (inl (IndyExc err)) (eng _ opening w).2
                   [Called opening]
    | inr tails_writer =>
        let creation :=
          issuer_create_and_store_revoc_reg wallet_handle origin_did
            revoc_def_type tag cred_def_id max_cred_num
            (or_default issuance_type DEFAULT_ISSUANCE_TYPE) tails_writer in
        let reply := eng _ creation (eng _ opening w).2 in
        mkOutcome
          (match reply.1 with
           | inl err =>
               inl (IssuerExc IssuerError
                      (wrap_text "Exception when creating revocation registry"
                         err)
                      (Some err))
           | inr x => inr x
           end)
          reply.2 [Called opening; Called creation]
    end.
Proof.
  unfold create_and_store_revocation_registry.
  rewrite run_indy_bind. cbn zeta.
  destruct (eng _ (open_writer _ _ _) w) as [[err|tails_writer] w1];
    cbn [fst snd]; [reflexivity|].
  rewrite (run_handled_bind wrap_text eng w1 _ _ _ _ (fun x => x));
    [reflexivity|]. by intros [[? ?] ?].
Qed.

End AgainstAnEngine.

Ltac unfold_method :=
  cbn [perform];
  rewrite ?run_create_and_store_schema,
    ?run_create_and_store_credential_definition,
    ?run_create_credential_offer, ?run_revoke_credential,
    ?run_credential_definition_in_wallet,
    ?run_create_and_store_revocation_registry;
  cbn zeta.

Ltac case_reply :=
  match goal with
  | |- context [?eng ?X ?c ?w] =>
      match type of eng with
      | engine _ => destruct (eng X c w) as [[?err|?x] ?w] eqn:?Hreply
      end
  end; cbn [fst snd].

Ltac case_issuance :=
  match goal with
  | |- context [create_credential _ ?encode _ ?schema _ _ ?vals _ _] =>
      let Hloop := fresh "Hloop" in
      destruct (encode_attributes encode (attrNames schema) vals ∅)
        as [?e|?enc] eqn:Hloop;
      [ rewrite (create_credential_stops _ _ _ _ _ _ _ _ _ _ Hloop), run_Raise
      | rewrite (create_credential_run _ _ _ _ _ _ _ _ _ _ _ _ Hloop);
        cbn zeta ]
  end.

Section EveryMethod.

Variable wallet_handle : Z.
Variable DEFAULT_CRED_DEF_TAG : string.
Variable DEFAULT_ISSUANCE_TYPE : string.
Variable DEFAULT_SIGNATURE_TYPE : string.
Variable encode : value -> Z.
Variable wrap_text : string -> IndyError -> string.
Context {W : Type}.
Variable eng : engine W.
Variable w : W.

(** X5. A line goes to the log exactly when
    [IssuerRevocationRegistryFullError] is raised: a method call that ends
    with that error has written the one line about the full registry, and
    a method call that ends in any other way has written nothing. *)
Theorem log_line_iff_registry_full {R : Type} (m : method R) :
  let o :=
    run eng
      (perform wallet_handle DEFAULT_CRED_DEF_TAG DEFAULT_ISSUANCE_TYPE
         DEFAULT_SIGNATURE_TYPE encode wrap_text m) w in
  (result o = inl registry_full_error ->
   log_lines (trace o)
   = ["Revocation registry is full when creating a credential."])
  /\ (result o <> inl registry_full_error -> log_lines (trace o) = []).
Proof.
  destruct m; unfold_method; try case_issuance; repeat case_reply;
    repeat match goal with
           | |- context [bool_decide ?P] => destruct (bool_decide P)
           | |- context [is_registry_full ?e] => destruct (is_registry_full e)
           | x : (_ * _)%type |- _ => destruct x
           end;
    cbn; (split; intros Hres); try reflexivity; try discriminate Hres;
    try (by destruct Hres).
  apply encode_attributes_inl in Hloop as (a & _ & _ & ->). discriminate Hres.
Qed.

(** X6. No method retries: a method call makes at most one libindy call,
    the creation of a revocation registry at most two, and the two id
    derivers none. *)
Theorem no_method_retries {R : Type} (m : method R) :
  (length (engine_calls
             (trace (run eng
                       (perform wallet_handle DEFAULT_CRED_DEF_TAG
                          DEFAULT_ISSUANCE_TYPE DEFAULT_SIGNATURE_TYPE encode
                          wrap_text m) w)))
   <= call_budget m)%nat.
Proof.
  destruct m; unfold_method; try case_issuance; repeat case_reply;
    repeat match goal with
           | |- context [bool_decide ?P] => destruct (bool_decide P)
           | |- context [is_registry_full ?e] => destruct (is_registry_full e)
           | x : (_ * _)%type |- _ => destruct x
           end;
    cbn; lia.
Qed.

(** X7. Every libindy call that takes a wallet handle is given the
    issuer's own. *)
Theorem only_own_wallet_handle {R : Type} (m : method R) :
  Forall (fun h => h = wallet_handle)
    (wallet_handles
       (trace (run eng
                 (perform wallet_handle DEFAULT_CRED_DEF_TAG
                    DEFAULT_ISSUANCE_TYPE DEFAULT_SIGNATURE_TYPE encode
                    wrap_text m) w))).
Proof.
  destruct m; unfold_method; try case_issuance; repeat case_reply;
    repeat match goal with
           | |- context [bool_decide ?P] => destruct (bool_decide P)
           | |- context [is_registry_full ?e] => destruct (is_registry_full e)
           | x : (_ * _)%type |- _ => destruct x
           end;
    cbn; repeat constructor.
Qed.



(** X10. When the tails writer opens and the engine then refuses to create
    the registry, [create_and_store_revocation_registry] raises
    [IssuerError] with the refusal as its cause, after exactly those two
    calls: nothing is done about the writer that was opened. *)
Theorem registry_refused_after_writer_opened
  (origin_did cred_def_id revoc_def_type tag : string) (max_cred_num : Z)
  (tails_base_path : string) (issuance_type : option string)
  (tails_writer : Z) (err : IndyError) :
  let opening := open_writer "default" tails_base_path "" in
  let creation :=
    issuer_create_and_store_revoc_reg wallet_handle origin_did revoc_def_type
      tag cred_def_id max_cred_num
      (or_default issuance_type DEFAULT_ISSUANCE_TYPE) tails_writer in
  (eng _ opening w).1 = inr tails_writer ->
  (eng _ creation (eng _ opening w).2).1 = inl err ->
  run eng
    (create_and_store_revocation_registry wallet_handle DEFAULT_ISSUANCE_TYPE
       wrap_text origin_did cred_def_id revoc_def_type tag max_cred_num
       tails_base_path issuance_type) w
  = mkOutcome
      (inl (IssuerExc IssuerError
              (wrap_text "Exception when creating revocation registry" err)
              (Some err)))
      (eng _ creation (eng _ opening w).2).2
      [Called opening; Called creation].
Proof.
  intros opening creation Hopen Hcreate.
  rewrite run_create_and_store_revocation_registry. cbn zeta.
  fold opening. rewrite Hopen. fold creation. by rewrite Hcreate.
Qed.

End EveryMethod.


Lemma registry_refused_after_writer_opened_witness :
  run (Scenario.no_registry Scenario.invalid_state)
    (create_and_store_revocation_registry 1 "ISSUANCE_BY_DEFAULT"
       Sample.wrap_text "did:x" "did:x:3:CL:15:tag1" "CL_ACCUM" "rev1" 100
       "/tmp/tails" (Some "")) 0%nat
  = mkOutcome
      (inl (IssuerExc IssuerError
              "Exception when creating revocation registry"
              (Some Scenario.invalid_state)))
      2%nat
      [Called (open_writer "default" "/tmp/tails" "");
       Called (issuer_create_and_store_revoc_reg 1 "did:x" "CL_ACCUM" "rev1"
                 "did:x:3:CL:15:tag1" 100 "ISSUANCE_BY_DEFAULT" 7)].
Proof.
  exact (registry_refused_after_writer_opened 1 "ISSUANCE_BY_DEFAULT"
           Sample.wrap_text (Scenario.no_registry Scenario.invalid_state)
           0%nat "did:x" "did:x:3:CL:15:tag1" "CL_ACCUM" "rev1" 100
           "/tmp/tails" (Some "") 7 Scenario.invalid_state eq_refl eq_refl).
Defined.
